(** * Index coordination and document store of the llama-index demo server

    A shallow embedding of [index_server.py]: the module globals [index]
    and [stored_docs], the two durable artifacts ([./saved_index] and
    [stored_documents.pkl]) and the three remote operations
    [query_index], [insert_into_index] and [get_documents_list], together
    with [initialize_index].

    The llama-index objects (reader, vector index, storage context, query
    engine), [pickle.dump] and the class of a [stored_docs] that is not
    a dict are collaborators: their outcomes are not computed here but
    supplied by a record of oracles, each of which sees the history of
    the run so far, so that a collaborator may succeed on one call and
    raise on the next.  A Python exception of class [Exception] is
    modelled by the [Raised] result; the state reached when it is raised
    is kept, as in Python.  What is raised outside that class
    ([KeyboardInterrupt], [SystemExit]) passes every handler of the
    source: a run that is interrupted so is not a run of this model.
    The constructors [OpenAIEmbedding(...)] and
    [SentenceSplitter(chunk_size=512)], which build an object from
    constants, are taken to return. *)

From Stdlib Require Import String Ascii List Bool Arith Lia.
Import ListNotations.
Local Open Scope string_scope.
Local Open Scope list_scope.



(* ===================================================================== *)
(** ** Python strings *)
(* ===================================================================== *)

(** A Python [str] is a sequence of code points.  It is held here as
    its UTF-8 encoding, one [ascii] per byte; characters are counted and
    cut by code point, as [len] and slicing do.  Comparison, truth,
    concatenation and the split at ['/'] are the same on the encoding
    as on the code points. *)
Module PyStr.

(** A byte [10xxxxxx]: it continues the character that the bytes before
    it began. *)
Definition is_continuation (c : ascii) : bool :=
  match c with Ascii _ _ _ _ _ _ b6 b7 => b7 && negb b6 end.

(** [len(s)]: the number of code points, one per byte that begins a
    character. *)
Fixpoint len (s : string) : nat :=
  match s with
  | EmptyString => 0
  | String c s' => if is_continuation c then len s' else S (len s')
  end.

(** [s[:n]]: the first [n] code points, each with all of its bytes. *)
Fixpoint prefix (n : nat) (s : string) : string :=
  match s with
  | EmptyString => EmptyString
  | String c s' =>
      if is_continuation c then String c (prefix n s')
      else match n with
           | O => EmptyString
           | S n' => String c (prefix n' s')
           end
  end.

(** [s] starts with the first byte of a character. *)
Definition begins_character (s : string) : bool :=
  match s with
  | EmptyString => false
  | String c _ => negb (is_continuation c)
  end.

(** [s * n] *)
Fixpoint times (n : nat) (s : string) : string :=
  match n with
  | O => EmptyString
  | S n' => s ++ times n' s
  end.

Definition is_slash (c : ascii) : bool := Ascii.eqb c "/"%char.

Fixpoint has_slash (s : string) : bool :=
  match s with
  | EmptyString => false
  | String c s' => is_slash c || has_slash s'
  end.

(** [os.path.basename] on POSIX: what follows the last ['/']. *)
Fixpoint basename (p : string) : string :=
  match p with
  | EmptyString => EmptyString
  | String c p' =>
      if is_slash c then basename p'
      else if has_slash p' then basename p' else p
  end.

(** [bool(s)] for a string: non-empty. *)
Definition truthy (s : string) : bool :=
  match s with EmptyString => false | String _ _ => true end.

(** [needle in hay] *)
Fixpoint starts_with (p s : string) : bool :=
  match p, s with
  | EmptyString, _ => true
  | String _ _, EmptyString => false
  | String a p', String b s' => Ascii.eqb a b && starts_with p' s'
  end.

Fixpoint contains (needle hay : string) : bool :=
  starts_with needle hay ||
  match hay with
  | EmptyString => false
  | String _ hay' => contains needle hay'
  end.

Fixpoint mem (x : string) (l : list string) : bool :=
  match l with
  | [] => false
  | y :: l' => String.eqb y x || mem x l'
  end.

End PyStr.

(* ===================================================================== *)
(** ** Data *)
(* ===================================================================== *)

(** A document part as the reader returns it: the loader-assigned
    identifier [id_] and the text. *)
Record Document := mkDocument { id_ : string; text : string }.

Definition with_id (d : Document) (i : string) : Document :=
  {| id_ := i; text := text d |}.

(** The vector index, seen through what was inserted into it. *)
Definition Index := list Document.

(** [VectorStoreIndex([], embed_model=...)] *)
Definition empty_index : Index := [].

(** A Python [dict] with string keys and values, in iteration order. *)
Definition Dict := list (string * string).

Module PyDict.

Fixpoint get (k : string) (d : Dict) : option string :=
  match d with
  | [] => None
  | (k', v) :: d' => if String.eqb k' k then Some v else get k d'
  end.

(** [d[k] = v]: an existing key keeps its place, a new one goes last. *)
Fixpoint set (k v : string) (d : Dict) : Dict :=
  match d with
  | [] => [(k, v)]
  | (k', v') :: d' =>
      if String.eqb k' k then (k, v) :: d' else (k', v') :: set k v d'
  end.

(** [d.items()] *)
Definition items (d : Dict) : list (string * string) := d.

End PyDict.

(** The value bound to the global [stored_docs]: a dict, or whatever
    else [pickle.load] returned, named by its [repr].  What such an
    object does is its class's business: see [setitem] below. *)
Inductive PyObj :=
| ADict (d : Dict)
| NotADict (repr : string).

Definition isinstance_dict (o : PyObj) : bool :=
  match o with ADict _ => true | NotADict _ => false end.

(** What is at [./saved_index]. *)
Inductive SnapDir :=
| Loadable (ix : Index)
| Unloadable (err : string).

(** What is in [stored_documents.pkl]. *)
Inductive PklFile :=
| Pickled (o : PyObj)
| Unpicklable (err : string).

(** The response object of the query engine. *)
Record Response := mkResponse { response_text : string }.

(** What [query_index] returns: the engine's response, or a string. *)
Inductive QueryReturn :=
| RResponse (r : Response)
| RStr (s : string).

(** How a call ends: it returns [a], or it raises an exception of class
    [Exception] whose [str] is [e]. *)
Inductive Result (A : Type) :=
| Ok (a : A)
| Raised (e : string).
Arguments Ok {A} a.
Arguments Raised {A} e.

(** Outcome of a write to durable storage; a failed write says what it
    left behind. *)
Inductive WriteResult (S : Type) :=
| Written
| WriteFailed (e : string) (remains : option S).
Arguments Written {S}.
Arguments WriteFailed {S} e remains.

(* ===================================================================== *)
(** ** Log records and collaborator calls *)
(* ===================================================================== *)

Inductive Level := INFO | WARNING | ERROR.

(** One constructor per [logger] call of [index_server.py]. *)
Inductive LogMsg :=
| LInitializing
| LLoadingIndex
| LLoadIndexFailed (e : string)
| LCreatingIndex
| LLoadingDocs
| LLoadDocsFailed (e : string)
| LDocsFileMissing
| LInitComplete
| LQueryNotReady
| LQuerying (shown : string)
| LQueryOk
| LQueryError (e : string)
| LInsertNotReady
| LFileNotFound (path : string)
| LInserting (path : string) (shown_id : string)
| LNoDocuments (path : string)
| LLoaded (n : nat)
| LUsingFilename (eid : string)
| LInserted (eid : string)
| LInsertFailed (eid : string) (e : string)
| LPersistingIndex (ids : list string)
| LPersistIndexFailed (e : string)
| LPersistingDocs
| LSaveDocsFailed (e : string)
| LNothingToPersist
| LProcessingError (path : string) (e : string)
| LNotADict
| LReloaded (n : nat)
| LReloadError (e : string)
| LReturning (n : nat).

Definition level (m : LogMsg) : Level :=
  match m with
  | LLoadIndexFailed _ | LLoadDocsFailed _ | LQueryNotReady | LQueryError _
  | LInsertNotReady | LFileNotFound _ | LInsertFailed _ _
  | LPersistIndexFailed _ | LSaveDocsFailed _ | LProcessingError _ _
  | LReloadError _ => ERROR
  | LNoDocuments _ | LUsingFilename _ | LNotADict => WARNING
  | _ => INFO
  end.

(** Calls into the collaborators, with how they ended ([None]: returned,
    [Some e]: raised [e]; the reader's call keeps what it returned). *)
Inductive Call :=
| CLoadIndex (err : option string)
| CPersistIndex (ix : Index) (err : option string)
| CPickleLoad (err : option string)
| CPickleDump (o : PyObj) (err : option string)
| CLoadData (path : string) (r : Result (list Document))
| CInsertDocument (d : Document) (err : option string)
| CQuery (query_text : string) (err : option string).

Inductive Event :=
| Logged (m : LogMsg)
| Called (c : Call).

Definition History := list Event.

(** The collaborators. *)
Record Collaborators := mkCollaborators {
  (** [os.path.exists] on a path other than the two durable artifacts *)
  path_exists : History -> string -> bool;
  (** [SimpleDirectoryReader(input_files=[p]).load_data()] *)
  load_data : History -> string -> Result (list Document);
  (** [index.insert_document(document, transformations=...)];
      [Some e] when it raises *)
  insert_document : History -> Index -> Document -> option string;
  (** [index.storage_context.persist(persist_dir=index_name)] *)
  persist : History -> Index -> WriteResult SnapDir;
  (** [open(pkl_name, "wb")] and [pickle.dump] *)
  pickle_dump : History -> PyObj -> WriteResult PklFile;
  (** [index.as_query_engine(similarity_top_k=2, llm=llm).query(text)] *)
  engine_query : History -> Index -> string -> Result Response;
  (** [o[k] = v] on an object [o] that is not a dict, given by its
      [repr]: the [repr] of [o] afterwards (a [collections.UserDict]
      takes the item), or what the assignment raises (a list gives
      [TypeError: list indices must be integers or slices, not str]) *)
  setitem : History -> string -> string -> string -> Result string
}.

(* ===================================================================== *)
(** ** The world: module globals, durable storage, history *)
(* ===================================================================== *)

Record World := mkWorld {
  index : option Index;          (* global [index] *)
  stored_docs : PyObj;           (* global [stored_docs] *)
  saved_index : option SnapDir;  (* [./saved_index], [None] when absent *)
  pkl_file : option PklFile;     (* [stored_documents.pkl] *)
  history : History              (* oldest event first *)
}.

Definition index_name : string := "./saved_index".
Definition pkl_name : string := "stored_documents.pkl".

(** The world at module load: [index = None], [stored_docs = {}]. *)
Definition module_loaded (si : option SnapDir) (pk : option PklFile) : World :=
  {| index := None; stored_docs := ADict [];
     saved_index := si; pkl_file := pk; history := [] |}.

Definition set_index (i : option Index) (w : World) : World :=
  {| index := i; stored_docs := stored_docs w;
     saved_index := saved_index w; pkl_file := pkl_file w;
     history := history w |}.

Definition set_stored_docs (o : PyObj) (w : World) : World :=
  {| index := index w; stored_docs := o;
     saved_index := saved_index w; pkl_file := pkl_file w;
     history := history w |}.

Definition set_saved_index (s : option SnapDir) (w : World) : World :=
  {| index := index w; stored_docs := stored_docs w;
     saved_index := s; pkl_file := pkl_file w;
     history := history w |}.

Definition set_pkl_file (p : option PklFile) (w : World) : World :=
  {| index := index w; stored_docs := stored_docs w;
     saved_index := saved_index w; pkl_file := p;
     history := history w |}.

Definition record (e : Event) (w : World) : World :=
  {| index := index w; stored_docs := stored_docs w;
     saved_index := saved_index w; pkl_file := pkl_file w;
     history := history w ++ [e] |}.

(* ===================================================================== *)
(** ** A state monad whose computations may raise *)
(* ===================================================================== *)

Definition M (A : Type) : Type := World -> Result A * World.

Definition ret {A} (a : A) : M A := fun w => (Ok a, w).

Definition bind {A B} (m : M A) (f : A -> M B) : M B :=
  fun w =>
    match m w with
    | (Ok a, w') => f a w'
    | (Raised e, w') => (Raised e, w')
    end.

Definition raise {A} (e : string) : M A := fun w => (Raised e, w).

(** [try: m  except Exception as e: h e].  Every [Raised] is of class
    [Exception], so the handler takes it. *)
Definition try_except {A} (m : M A) (h : string -> M A) : M A :=
  fun w =>
    match m w with
    | (Ok a, w') => (Ok a, w')
    | (Raised e, w') => h e w'
    end.

Definition read {A} (f : World -> A) : M A := fun w => (Ok (f w), w).
Definition update (f : World -> World) : M unit := fun w => (Ok tt, f w).
Definition log (m : LogMsg) : M unit := update (record (Logged m)).

Declare Scope py_scope.
Delimit Scope py_scope with py.
Notation "x <- m ;; k" := (bind m (fun x => k))
  (at level 61, m at next level, right associativity) : py_scope.
Notation "m ;; k" := (bind m (fun _ => k))
  (at level 61, right associativity) : py_scope.
Local Open Scope py_scope.

(* ===================================================================== *)
(** ** The operations of [index_server.py] *)
(* ===================================================================== *)

Section Server.

Variable C : Collaborators.

(** [os.path.exists] *)
Definition os_path_exists (p : string) : M bool :=
  read (fun w =>
    if String.eqb p index_name then
      match saved_index w with Some _ => true | None => false end
    else if String.eqb p pkl_name then
      match pkl_file w with Some _ => true | None => false end
    else path_exists C (history w) p).

(** [load_index_from_storage(StorageContext.from_defaults(persist_dir=index_name), ...)] *)
Definition load_index_from_storage : M Index :=
  fun w =>
    match saved_index w with
    | Some (Loadable ix) => (Ok ix, record (Called (CLoadIndex None)) w)
    | Some (Unloadable e) => (Raised e, record (Called (CLoadIndex (Some e))) w)
    | None =>
        let e := "No such file or directory: ./saved_index" in
        (Raised e, record (Called (CLoadIndex (Some e))) w)
    end.

(** [index.storage_context.persist(persist_dir=index_name)] *)
Definition storage_context_persist : M unit :=
  fun w =>
    match index w with
    | None => (Raised "'NoneType' object has no attribute 'storage_context'", w)
    | Some ix =>
        match persist C (history w) ix with
        | Written =>
            (Ok tt, record (Called (CPersistIndex ix None))
                      (set_saved_index (Some (Loadable ix)) w))
        | WriteFailed e remains =>
            (Raised e, record (Called (CPersistIndex ix (Some e)))
                         (set_saved_index remains w))
        end
    end.

(** [with open(pkl_name, "rb") as f: pickle.load(f)] *)
Definition pickle_load : M PyObj :=
  fun w =>
    match pkl_file w with
    | Some (Pickled o) => (Ok o, record (Called (CPickleLoad None)) w)
    | Some (Unpicklable e) => (Raised e, record (Called (CPickleLoad (Some e))) w)
    | None =>
        let e := "No such file or directory: stored_documents.pkl" in
        (Raised e, record (Called (CPickleLoad (Some e))) w)
    end.

(** [with open(pkl_name, "wb") as f: pickle.dump(stored_docs, f)] *)
Definition pickle_dump_stored_docs : M unit :=
  fun w =>
    let o := stored_docs w in
    match pickle_dump C (history w) o with
    | Written =>
        (Ok tt, record (Called (CPickleDump o None))
                  (set_pkl_file (Some (Pickled o)) w))
    | WriteFailed e remains =>
        (Raised e, record (Called (CPickleDump o (Some e)))
                     (set_pkl_file remains w))
    end.

(** [reader = SimpleDirectoryReader(input_files=[p]); reader.load_data()] *)
Definition reader_load_data (p : string) : M (list Document) :=
  fun w =>
    match load_data C (history w) p with
    | Ok ds => (Ok ds, record (Called (CLoadData p (Ok ds))) w)
    | Raised e => (Raised e, record (Called (CLoadData p (Raised e))) w)
    end.

(** [index.insert_document(document, transformations=transformations)]:
    the index gains the document when the call returns and is taken to
    be as before when it raises. *)
Definition index_insert_document (d : Document) : M unit :=
  fun w =>
    match index w with
    | None => (Raised "'NoneType' object has no attribute 'insert_document'", w)
    | Some ix =>
        match insert_document C (history w) ix d with
        | None =>
            (Ok tt, record (Called (CInsertDocument d None))
                      (set_index (Some (ix ++ [d])) w))
        | Some e => (Raised e, record (Called (CInsertDocument d (Some e))) w)
        end
    end.

(** [llm = OpenAI(...); index.as_query_engine(...).query(query_text)] *)
Definition query_engine_query (ix : Index) (query_text : string) : M Response :=
  fun w =>
    match engine_query C (history w) ix query_text with
    | Ok r => (Ok r, record (Called (CQuery query_text None)) w)
    | Raised e => (Raised e, record (Called (CQuery query_text (Some e))) w)
    end.

(** [stored_docs[k] = v] *)
Definition stored_docs_setitem (k v : string) : M unit :=
  fun w =>
    match stored_docs w with
    | ADict d => (Ok tt, set_stored_docs (ADict (PyDict.set k v d)) w)
    | NotADict repr =>
        match setitem C (history w) repr k v with
        | Ok repr' => (Ok tt, set_stored_docs (NotADict repr') w)
        | Raised e => (Raised e, w)
        end
    end.

(** *** [initialize_index]

    The embedding model is built before the lock is taken and is passed
    to the collaborators; it plays no part here.  [with lock:] brackets
    the body and is left out, runs being sequential in this model. *)

(** [index = VectorStoreIndex([], embed_model=embed_model)] followed by
    [index.storage_context.persist(persist_dir=index_name)], as both
    branches that create an index have it. *)
Definition new_index_and_persist : M unit :=
  update (set_index (Some empty_index)) ;;
  storage_context_persist.

Definition initialize_index : M unit :=
  log LInitializing ;;
  index_there <- os_path_exists index_name ;;
  (if index_there then
     log LLoadingIndex ;;
     try_except
       (ix <- load_index_from_storage ;;
        update (set_index (Some ix)))
       (fun e =>
          log (LLoadIndexFailed e) ;;
          new_index_and_persist)
   else
     log LCreatingIndex ;;
     new_index_and_persist) ;;
  pkl_there <- os_path_exists pkl_name ;;
  (if pkl_there then
     log LLoadingDocs ;;
     try_except
       (o <- pickle_load ;;
        update (set_stored_docs o))
       (fun e =>
          log (LLoadDocsFailed e) ;;
          update (set_stored_docs (ADict [])))
   else
     log LDocsFileMissing ;;
     update (set_stored_docs (ADict []))) ;;
  log LInitComplete.

(** *** [query_index] *)

Definition query_index (query_text : string) : M QueryReturn :=
  ix <- read index ;;
  match ix with
  | None =>
      log LQueryNotReady ;;
      ret (RStr "Error: Index not ready.")
  | Some ix =>
      log (LQuerying (PyStr.prefix 50 query_text)) ;;
      try_except
        (response <- query_engine_query ix query_text ;;
         log LQueryOk ;;
         ret (RResponse response))
        (fun e =>
           log (LQueryError e) ;;
           ret (RStr ("Error during query: " ++ e)))
  end.

(** *** [insert_into_index] *)

(** [doc_id if doc_id is not None else document.id_], then the file's
    base name [if not effective_doc_id]. *)
Definition effective_doc_id
    (doc_file_path : string) (doc_id : option string) (document : Document)
    : string :=
  let effective := match doc_id with Some i => i | None => id_ document end in
  if negb (PyStr.truthy effective) then PyStr.basename doc_file_path
  else effective.

(** [document.text[:200] + ("..." if len(document.text) > 200 else "")] *)
Definition preview (t : string) : string :=
  PyStr.prefix 200 t ++ (if Nat.ltb 200 (PyStr.len t) then "..." else "").

(** The body of [for document in documents], with [continue] as the
    early exit of one iteration. *)
Definition process_document
    (doc_file_path : string) (doc_id : option string)
    (document : Document) (processed_ids : list string) : M (list string) :=
  let effective := match doc_id with Some i => i | None => id_ document end in
  let eid := effective_doc_id doc_file_path doc_id document in
  (if negb (PyStr.truthy effective) then log (LUsingFilename eid) else ret tt) ;;
  let document := with_id document eid in
  inserted <- try_except
                (index_insert_document document ;;
                 log (LInserted eid) ;;
                 ret true)
                (fun e =>
                   log (LInsertFailed eid e) ;;
                   ret false) ;;
  if inserted : bool then
    stored_docs_setitem eid (preview (text document)) ;;
    ret (if PyStr.mem eid processed_ids then processed_ids
         else processed_ids ++ [eid])
  else
    ret processed_ids.

(** [for document in documents: ...], [processed_ids] starting as [[]]. *)
Fixpoint process_documents
    (doc_file_path : string) (doc_id : option string)
    (documents : list Document) (processed_ids : list string)
    : M (list string) :=
  match documents with
  | [] => ret processed_ids
  | document :: rest =>
      processed_ids <- process_document doc_file_path doc_id document processed_ids ;;
      process_documents doc_file_path doc_id rest processed_ids
  end.

(** The branch [if processed_ids:]: both writes, each in its own [try]. *)
Definition persist_changes (processed_ids : list string) : M unit :=
  log (LPersistingIndex processed_ids) ;;
  try_except storage_context_persist
    (fun e => log (LPersistIndexFailed e)) ;;
  log LPersistingDocs ;;
  try_except pickle_dump_stored_docs
    (fun e => log (LSaveDocsFailed e)).

Definition insert_into_index
    (doc_file_path : string) (doc_id : option string) : M unit :=
  ix <- read index ;;
  match ix with
  | None => log LInsertNotReady
  | Some _ =>
      there <- os_path_exists doc_file_path ;;
      if negb there then log (LFileNotFound doc_file_path)
      else
        log (LInserting doc_file_path
               (match doc_id with
                | Some i => if PyStr.truthy i then i else "Auto"
                | None => "Auto"
                end)) ;;
        try_except
          (documents <- reader_load_data doc_file_path ;;
           match documents with
           | [] => log (LNoDocuments doc_file_path)
           | _ :: _ =>
               log (LLoaded (List.length documents)) ;;
               processed_ids <- process_documents doc_file_path doc_id documents [] ;;
               match processed_ids with
               | _ :: _ => persist_changes processed_ids
               | [] => log LNothingToPersist
               end
           end)
          (fun e => log (LProcessingError doc_file_path e))
  end.

(** *** [get_documents_list] *)

(** The branch [if not isinstance(stored_docs, dict):]. *)
Definition reload_stored_docs : M unit :=
  log LNotADict ;;
  there <- os_path_exists pkl_name ;;
  if there then
    try_except
      (loaded_data <- pickle_load ;;
       match loaded_data with
       | ADict d =>
           update (set_stored_docs loaded_data) ;;
           log (LReloaded (List.length d))
       | NotADict _ => update (set_stored_docs (ADict []))
       end)
      (fun e =>
         log (LReloadError e) ;;
         update (set_stored_docs (ADict [])))
  else update (set_stored_docs (ADict [])).

Definition get_documents_list : M (list (string * string)) :=
  o <- read stored_docs ;;
  (if negb (isinstance_dict o) then reload_stored_docs else ret tt) ;;
  o <- read stored_docs ;;
  match o with
  | ADict d =>
      let documents_list := PyDict.items d in
      log (LReturning (List.length documents_list)) ;;
      ret documents_list
  | NotADict _ => raise "object has no attribute 'items'"
  end.

End Server.

(* ===================================================================== *)
(** ** Reading a history *)
(* ===================================================================== *)

(** What a run from [w] to [w'] added to the history. *)
Definition events_since (w w' : World) : History :=
  skipn (List.length (history w)) (history w').

(** The collaborator calls of a history, in order. *)
Fixpoint calls (evs : History) : list Call :=
  match evs with
  | [] => []
  | Called c :: evs' => c :: calls evs'
  | Logged _ :: evs' => calls evs'
  end.

(** The log records of a history, in order. *)
Fixpoint logs (evs : History) : list LogMsg :=
  match evs with
  | [] => []
  | Logged m :: evs' => m :: logs evs'
  | Called _ :: evs' => logs evs'
  end.

(** The documents handed to [insert_document], in call order. *)
Fixpoint attempts (cs : list Call) : list Document :=
  match cs with
  | [] => []
  | CInsertDocument d _ :: cs' => d :: attempts cs'
  | _ :: cs' => attempts cs'
  end.

(** Those of them whose insertion returned. *)
Fixpoint inserted_by (cs : list Call) : list Document :=
  match cs with
  | [] => []
  | CInsertDocument d None :: cs' => d :: inserted_by cs'
  | _ :: cs' => inserted_by cs'
  end.

(** The writes to durable storage that were started. *)
Definition is_persist (c : Call) : bool :=
  match c with CPersistIndex _ _ => true | _ => false end.

Definition is_dump (c : Call) : bool :=
  match c with CPickleDump _ _ => true | _ => false end.

Definition persists (cs : list Call) : list Call := filter is_persist cs.
Definition dumps (cs : list Call) : list Call := filter is_dump cs.

(** The texts sent to the query engine. *)
Fixpoint queries (cs : list Call) : list string :=
  match cs with
  | [] => []
  | CQuery t _ :: cs' => t :: queries cs'
  | _ :: cs' => queries cs'
  end.

(** The preview stored under [k], if the store is a dict that has one. *)
Definition entry (k : string) (o : PyObj) : option string :=
  match o with
  | ADict d => PyDict.get k d
  | NotADict _ => None
  end.

Definition put_preview (d : Dict) (p : Document) : Dict :=
  PyDict.set (id_ p) (preview (text p)) d.

Definition note_id (ids : list string) (k : string) : list string :=
  if PyStr.mem k ids then ids else ids ++ [k].

(** The part as it is handed to the index: retagged. *)
Definition tag (doc_file_path : string) (doc_id : option string)
    (d : Document) : Document :=
  with_id d (effective_doc_id doc_file_path doc_id d).

(** What the calls of the loop look like: one [insert_document] per
    part, on the retagged part. *)
Definition attempt_of (doc_file_path : string) (doc_id : option string)
    (c : Call) (d : Document) : Prop :=
  exists err, c = CInsertDocument (tag doc_file_path doc_id d) err.

(** The calls of one [insert_into_index] when [stored_docs] is a dict. *)
Definition insert_calls_shape
    (doc_file_path : string) (doc_id : option string)
    (w w' : World) (cs : list Call) : Prop :=
  (cs = [] /\ saved_index w' = saved_index w /\ pkl_file w' = pkl_file w)
  \/ (exists e, cs = [CLoadData doc_file_path (Raised e)] /\
        saved_index w' = saved_index w /\ pkl_file w' = pkl_file w)
  \/ (exists docs ins,
        cs = CLoadData doc_file_path (Ok docs) :: ins /\
        Forall2 (attempt_of doc_file_path doc_id) ins docs /\
        inserted_by ins = [] /\
        saved_index w' = saved_index w /\ pkl_file w' = pkl_file w)
  \/ (exists docs ins ix ep o eq,
        cs = CLoadData doc_file_path (Ok docs) :: ins ++
               [CPersistIndex ix ep; CPickleDump o eq] /\
        Forall2 (attempt_of doc_file_path doc_id) ins docs /\
        inserted_by ins <> [] /\
        index w' = Some ix /\ o = stored_docs w' /\
        (ep = None -> saved_index w' = Some (Loadable ix)) /\
        (eq = None -> pkl_file w' = Some (Pickled o))).


(* ===================================================================== *)
(** ** Scenarios *)
(* ===================================================================== *)

Definition notes_path : string := "/srv/documents/notes.txt".

Definition notes_part : Document :=
  {| id_ := "auto-1"; text := "Vector indexes map text to embeddings." |}.

(** Every collaborator works; the only document file is [notes_path].
    A store that is not a dict is a list here. *)
Definition steady : Collaborators :=
  {| path_exists := fun _ p => String.eqb p notes_path;
     load_data := fun _ _ => Ok [notes_part];
     insert_document := fun _ _ _ => None;
     persist := fun _ _ => Written;
     pickle_dump := fun _ _ => Written;
     engine_query := fun _ _ _ => Ok {| response_text := "An answer." |};
     setitem := fun _ _ _ _ =>
       Raised "list indices must be integers or slices, not str" |}.

(** The query engine cannot reach its model. *)
Definition offline : Collaborators :=
  {| path_exists := path_exists steady;
     load_data := load_data steady;
     insert_document := insert_document steady;
     persist := persist steady;
     pickle_dump := pickle_dump steady;
     engine_query := fun _ _ _ =>
       Raised "Connection error: host api.openai.com, key sk-test";
     setitem := setitem steady |}.

(** The reader returns three pages; the index refuses the empty one. *)
Definition three_pages : list Document :=
  [ {| id_ := "p1"; text := "first page" |};
    {| id_ := "p2"; text := "" |};
    {| id_ := "p3"; text := "third page" |} ].

Definition picky : Collaborators :=
  {| path_exists := path_exists steady;
     load_data := fun _ _ => Ok three_pages;
     insert_document := fun _ _ d =>
       if PyStr.truthy (text d) then None else Some "nothing to embed";
     persist := persist steady;
     pickle_dump := pickle_dump steady;
     engine_query := engine_query steady;
     setitem := setitem steady |}.

(** A process in which [initialize_index] was never run. *)
Definition not_initialized : World := module_loaded None None.

(** A process after a first start on empty storage. *)
Definition ready : World :=
  {| index := Some empty_index; stored_docs := ADict [];
     saved_index := Some (Loadable empty_index); pkl_file := None;
     history := [] |}.

(** The world [ready], had its preview file held a pickled list. *)
Definition ready_with_a_list : World :=
  {| index := Some empty_index; stored_docs := NotADict "[1, 2]";
     saved_index := Some (Loadable empty_index);
     pkl_file := Some (Pickled (NotADict "[1, 2]"));
     history := [] |}.

(** What the preview file gives at start: the unpickled object, or [{}]
    when the file is absent or cannot be unpickled. *)
Definition store_at_start (pk : option PklFile) : PyObj :=
  match pk with
  | Some (Pickled o) => o
  | _ => ADict []
  end.

(** The reader cannot parse the file. *)
Definition unreadable : Collaborators :=
  {| path_exists := path_exists steady;
     load_data := fun _ _ => Raised "Unsupported file type";
     insert_document := insert_document steady;
     persist := persist steady;
     pickle_dump := pickle_dump steady;
     engine_query := engine_query steady;
     setitem := setitem steady |}.

(** The reader finds nothing in the file. *)
Definition blank : Collaborators :=
  {| path_exists := path_exists steady;
     load_data := fun _ _ => Ok [];
     insert_document := insert_document steady;
     persist := persist steady;
     pickle_dump := pickle_dump steady;
     engine_query := engine_query steady;
     setitem := setitem steady |}.

(** Storage that refuses every write. *)
Definition read_only : Collaborators :=
  {| path_exists := path_exists steady;
     load_data := load_data steady;
     insert_document := insert_document steady;
     persist := fun _ _ => WriteFailed "Read-only file system" None;
     pickle_dump := fun _ _ => WriteFailed "Read-only file system" None;
     engine_query := engine_query steady;
     setitem := setitem steady |}.


(** U+00E9, two bytes in UTF-8: [0xC3 0xA9]. *)
Definition e_acute : string :=
  String (Ascii true true false false false false true true)
    (String (Ascii true false false true false true false true) EmptyString).

(** A part of 201 characters, none of them ASCII. *)
Definition accents_part : Document :=
  {| id_ := "auto-2"; text := PyStr.times 201 e_acute |}.

Definition accents : Collaborators :=
  {| path_exists := path_exists steady;
     load_data := fun _ _ => Ok [accents_part];
     insert_document := insert_document steady;
     persist := persist steady;
     pickle_dump := pickle_dump steady;
     engine_query := engine_query steady;
     setitem := setitem steady |}.

(** A file that the reader returns as two parts: 300 characters, then a
    short one. *)
Definition two_parts : list Document :=
  [ {| id_ := "part-1"; text := PyStr.times 300 "A" |};
    {| id_ := "part-2"; text := "end" |} ].

Definition paged : Collaborators :=
  {| path_exists := path_exists steady;
     load_data := fun _ _ => Ok two_parts;
     insert_document := insert_document steady;
     persist := persist steady;
     pickle_dump := pickle_dump steady;
     engine_query := engine_query steady;
     setitem := setitem steady |}.

(** The world [ready] with one preview in its store. *)
Definition ready_with_an_entry : World :=
  {| index := Some empty_index; stored_docs := ADict [("old", "kept")];
     saved_index := Some (Loadable empty_index);
     pkl_file := Some (Pickled (ADict [("old", "kept")]));
     history := [] |}.

(** A store that is a [collections.UserDict]: not a dict, and it takes
    the item. *)
Definition ready_with_a_userdict : World :=
  {| index := Some empty_index; stored_docs := NotADict "{}";
     saved_index := Some (Loadable empty_index);
     pkl_file := Some (Pickled (NotADict "{}"));
     history := [] |}.

Definition lenient : Collaborators :=
  {| path_exists := path_exists steady;
     load_data := load_data steady;
     insert_document := insert_document steady;
     persist := persist steady;
     pickle_dump := pickle_dump steady;
     engine_query := engine_query steady;
     setitem := fun _ _ k v => Ok ("{'" ++ k ++ "': '" ++ v ++ "'}")%string |}.

(** The errors of the collaborator calls that raised, in call order. *)
Fixpoint errors_of (cs : list Call) : list string :=
  match cs with
  | [] => []
  | CLoadIndex (Some e) :: cs' | CPersistIndex _ (Some e) :: cs'
  | CPickleLoad (Some e) :: cs' | CPickleDump _ (Some e) :: cs'
  | CLoadData _ (Raised e) :: cs' | CInsertDocument _ (Some e) :: cs'
  | CQuery _ (Some e) :: cs' => e :: errors_of cs'
  | _ :: cs' => errors_of cs'
  end.

(** The exception texts that the log records carry, in log order. *)
Fixpoint error_texts (ls : list LogMsg) : list string :=
  match ls with
  | [] => []
  | LLoadIndexFailed e :: ls' | LLoadDocsFailed e :: ls'
  | LQueryError e :: ls' | LInsertFailed _ e :: ls'
  | LPersistIndexFailed e :: ls' | LSaveDocsFailed e :: ls'
  | LProcessingError _ e :: ls' | LReloadError e :: ls' =>
      e :: error_texts ls'
  | _ :: ls' => error_texts ls'
  end.

(** The identifiers logged as inserted, in log order. *)
Fixpoint accepted_logs (ls : list LogMsg) : list string :=
  match ls with
  | [] => []
  | LInserted eid :: ls' => eid :: accepted_logs ls'
  | _ :: ls' => accepted_logs ls'
  end.

(** The log of a history tells what its calls raised and which parts the
    index accepted. *)
Definition well_logged (evs : History) : Prop :=
  error_texts (logs evs) = errors_of (calls evs) /\
  accepted_logs (logs evs) = map id_ (inserted_by (calls evs)).

(** What [insert_into_index] shows of [doc_id] in its first log record:
    [doc_id or 'Auto']. *)
Definition shown_id (doc_id : option string) : string :=
  match doc_id with
  | Some i => if PyStr.truthy i then i else "Auto"
  | None => "Auto"
  end.

(** Every preview of a dict has at most [n] characters. *)
Definition previews_within (n : nat) (d : Dict) : Prop :=
  Forall (fun kv => PyStr.len (snd kv) <= n) d.

(* ===================================================================== *)
(** ** The HTTP front end, [flask_demo.py] *)
(* ===================================================================== *)

(** The front end runs in a process of its own and reaches the three
    operations above through a [BaseManager] proxy.  Its handlers are
    embedded over the state of both processes: the server's [World] and
    the front end's own history of log records, file operations and
    remote calls.  What the front end's environment does (the link to
    the server, the temporary file, werkzeug's [secure_filename], the
    attributes of the engine's response object) is supplied by oracles,
    as for the server.  Whether the server finds the file the front end
    saved stays with the server's own oracle [path_exists]: what is
    proved of the handlers holds for every such oracle. *)

Module FlaskDemo.

(** [os.path.join(a, b)] on POSIX. *)
Fixpoint ends_with_slash (s : string) : bool :=
  match s with
  | EmptyString => false
  | String c EmptyString => PyStr.is_slash c
  | String _ s' => ends_with_slash s'
  end.

Definition path_join (a b : string) : string :=
  match b with
  | String c _ =>
      if PyStr.is_slash c then b
      else if negb (PyStr.truthy a) || ends_with_slash a then (a ++ b)%string
      else (a ++ "/" ++ b)%string
  | EmptyString =>
      if negb (PyStr.truthy a) || ends_with_slash a then a
      else (a ++ "/")%string
  end.

(** The remote calls. *)
Inductive Rpc :=
| RpcQuery (query_text : string)
| RpcInsert (filepath : string) (doc_id : option string)
| RpcList.

(** What the link does to one remote call: it goes through, or it
    breaks before the server ran the operation, or after. *)
Inductive Link :=
| Delivered
| LostRequest (e : string)
| LostReply (e : string).

(** One constructor per [app.logger] call of [flask_demo.py]. *)
Inductive FlaskMsg :=
| FUnexpectedNode
| FQueryError (e : string)
| FSaved (filepath : string)
| FInsertCalled (filepath : string) (doc_id : option string)
| FUploadError (e : string)
| FCleanedUp (filepath : string)
| FRemoveError (filepath : string) (e : string)
| FDocumentsError (e : string).

Definition flask_level (m : FlaskMsg) : Level :=
  match m with
  | FUnexpectedNode => WARNING
  | FSaved _ | FInsertCalled _ _ | FCleanedUp _ => INFO
  | _ => ERROR
  end.

Inductive FlaskEvent :=
| FLogged (m : FlaskMsg)
| FMakedirs (path : string) (err : option string)
| FSave (path : string) (err : option string)
| FRemove (path : string) (err : option string)
| FCalled (c : Rpc) (err : option string).

Definition FlaskHistory := list FlaskEvent.

(** The paths handed to [os.remove], in call order. *)
Fixpoint removals (evs : FlaskHistory) : list string :=
  match evs with
  | [] => []
  | FRemove p _ :: evs' => p :: removals evs'
  | _ :: evs' => removals evs'
  end.

(** The state of both processes. *)
Record Both := mkBoth {
  server : World;
  front : FlaskHistory
}.

Definition FM (A : Type) : Type := Both -> Result A * Both.

Definition fret {A} (a : A) : FM A := fun s => (Ok a, s).

Definition fbind {A B} (m : FM A) (f : A -> FM B) : FM B :=
  fun s =>
    match m s with
    | (Ok a, s') => f a s'
    | (Raised e, s') => (Raised e, s')
    end.

Definition ftry {A} (m : FM A) (h : string -> FM A) : FM A :=
  fun s =>
    match m s with
    | (Ok a, s') => (Ok a, s')
    | (Raised e, s') => h e s'
    end.

(** [try: m  finally: f], for an [f] that does not raise. *)
Definition ffinally {A} (m : FM A) (f : FM unit) : FM A :=
  fun s =>
    match m s with
    | (r, s') => (r, snd (f s'))
    end.

Definition fnote (e : FlaskEvent) : FM unit :=
  fun s => (Ok tt, {| server := server s; front := front s ++ [e] |}).

Definition flog (m : FlaskMsg) : FM unit := fnote (FLogged m).

(** A JSON body, or the text of [home]. *)
Inductive Body (Source : Type) :=
| JError (error : string)
| JMessage (message : string)
| JAnswer (text : string) (sources : list Source)
| JDocuments (documents : list (string * string)).
Arguments JError {Source} error.
Arguments JMessage {Source} message.
Arguments JAnswer {Source} text sources.
Arguments JDocuments {Source} documents.

Section Handlers.

(** The types of the engine's response object are the collaborator's:
    the elements of [source_nodes], their nodes, scores and metadata
    values. *)
Variables Item Node Score Meta : Type.

(** One source of an answer, as [query_index] builds it. *)
Record Source := mkSource {
  source_text : string;
  similarity : Score;
  source_doc_id : string;
  source_start : option Meta;
  source_end : option Meta
}.

Record FrontEnd := mkFrontEnd {
  (** [app.root_path] *)
  root_path : string;
  (** [werkzeug.utils.secure_filename] *)
  secure_filename : string -> string;
  (** [os.makedirs(docs_dir, exist_ok=True)]; [Some e] when it raises *)
  makedirs : FlaskHistory -> string -> option string;
  (** [uploaded_file.save(filepath)] *)
  save : FlaskHistory -> string -> option string;
  (** [os.path.exists(filepath)] *)
  exists_ : FlaskHistory -> string -> bool;
  (** [os.remove(filepath)]; [Some e] when it raises [OSError] *)
  remove : FlaskHistory -> string -> option string;
  (** the link to the server, for the next remote call *)
  link : FlaskHistory -> Link;
  (** [getattr(response, 'source_nodes', [])] *)
  source_nodes : Response -> list Item;
  (** [getattr(x, 'node', None)], [None] also for a falsy node *)
  item_node : Item -> option Node;
  (** [getattr(node, 'text', 'N/A')] *)
  node_text : Node -> string;
  (** [round(getattr(x, 'score', 0.0), 2)]; raises on a score that is
      not a number *)
  item_similarity : Item -> Result Score;
  (** [getattr(node, 'node_id', 'N/A')] *)
  node_id : Node -> string;
  (** [getattr(node, 'metadata', {}).get('start')] and [.get('end')] *)
  node_start : Node -> Result (option Meta);
  node_end : Node -> Result (option Meta)
}.

Variable F : FrontEnd.
Variable C : Collaborators.

Definition HttpResponse : Type := Body Source * nat.

(** A call through the proxy: the operation runs on the server's world
    unless the request is lost; an exception of the operation, or of the
    link, is raised in the front end. *)
Definition remote {A} (c : Rpc) (op : M A) : FM A :=
  fun s =>
    match link F (front s) with
    | LostRequest e =>
        (Raised e, {| server := server s;
                      front := front s ++ [FCalled c (Some e)] |})
    | LostReply e =>
        (Raised e, {| server := snd (op (server s));
                      front := front s ++ [FCalled c (Some e)] |})
    | Delivered =>
        match op (server s) with
        | (Ok a, w') =>
            (Ok a, {| server := w'; front := front s ++ [FCalled c None] |})
        | (Raised e, w') =>
            (Raised e, {| server := w';
                          front := front s ++ [FCalled c (Some e)] |})
        end
    end.

(** The dict appended for one element whose node is there. *)
Definition source_of (x : Item) (node : Node) : Result Source :=
  match item_similarity F x with
  | Raised e => Raised e
  | Ok sim =>
      match node_start F node with
      | Raised e => Raised e
      | Ok st =>
          match node_end F node with
          | Raised e => Raised e
          | Ok en =>
              Ok {| source_text := node_text F node;
                    similarity := sim;
                    source_doc_id := node_id F node;
                    source_start := st;
                    source_end := en |}
          end
      end
  end.

(** [for x in getattr(response, 'source_nodes', []): ...] *)
Fixpoint collect_sources (items : list Item) (sources : list Source)
    : FM (list Source) :=
  match items with
  | [] => fret sources
  | x :: items' =>
      match item_node F x with
      | Some node =>
          match source_of x node with
          | Ok src => collect_sources items' (sources ++ [src])
          | Raised e => fun s => (Raised e, s)
          end
      | None =>
          fbind (flog FUnexpectedNode)
                (fun _ => collect_sources items' sources)
      end
  end.

(** [getattr(response, 'source_nodes', [])]: a string has none. *)
Definition response_source_nodes (response : QueryReturn) : list Item :=
  match response with
  | RResponse r => source_nodes F r
  | RStr _ => []
  end.

(** [str(response)] *)
Definition response_str (response : QueryReturn) : string :=
  match response with
  | RResponse r => response_text r
  | RStr s => s
  end.

(** [GET /query]; [None] when the request has no [text] argument.
    [jsonify] is taken to return: the answer holds strings and what the
    engine's own objects give. *)
Definition query_index (text : option string) : FM HttpResponse :=
  match text with
  | None =>
      fret (JError "No text found, please include a ?text=blah parameter", 400)
  | Some query_text =>
      ftry
        (fbind (remote (RpcQuery query_text) (query_index C query_text))
           (fun response =>
         fbind (collect_sources (response_source_nodes response) [])
           (fun sources =>
         fret (JAnswer (response_str response) sources, 200))))
        (fun e =>
           fbind (flog (FQueryError e)) (fun _ =>
           fret (JError "An error occurred while querying the index.", 500)))
  end.

(** The request of [POST /uploadFile]: the file name of the part named
    [file], if there is one, and whether the form has the field
    [filename_as_doc_id]. *)
Record Upload := mkUpload {
  file : option string;
  filename_as_doc_id : bool
}.

(** The [finally] block of [upload_file]. *)
Definition clean_up (filepath : string) : FM unit :=
  fun s =>
    if PyStr.truthy filepath && exists_ F (front s) filepath then
      match remove F (front s) filepath with
      | None =>
          (Ok tt, {| server := server s;
                     front := front s ++ [FRemove filepath None;
                                          FLogged (FCleanedUp filepath)] |})
      | Some e =>
          (Ok tt, {| server := server s;
                     front := front s ++ [FRemove filepath (Some e);
                                          FLogged (FRemoveError filepath e)] |})
      end
    else (Ok tt, s).

Definition do_makedirs (docs_dir : string) : FM unit :=
  fun s =>
    match makedirs F (front s) docs_dir with
    | None => (Ok tt, {| server := server s;
                         front := front s ++ [FMakedirs docs_dir None] |})
    | Some e => (Raised e, {| server := server s;
                              front := front s ++ [FMakedirs docs_dir (Some e)] |})
    end.

Definition do_save (filepath : string) : FM unit :=
  fun s =>
    match save F (front s) filepath with
    | None => (Ok tt, {| server := server s;
                         front := front s ++ [FSave filepath None] |})
    | Some e => (Raised e, {| server := server s;
                              front := front s ++ [FSave filepath (Some e)] |})
    end.

(** [POST /uploadFile] *)
Definition upload_file (request : Upload) : FM HttpResponse :=
  match file request with
  | None => fret (JError "Please send a POST request with a file", 400)
  | Some name =>
      if negb (PyStr.truthy name) then fret (JError "Invalid file provided", 400)
      else
        let filename := secure_filename F name in
        let docs_dir := path_join (root_path F) "documents" in
        fbind (do_makedirs docs_dir) (fun _ =>
        let filepath := path_join docs_dir filename in
        ffinally
          (ftry
             (fbind (do_save filepath) (fun _ =>
              fbind (flog (FSaved filepath)) (fun _ =>
              let doc_id_to_pass :=
                if filename_as_doc_id request then Some filename else None in
              fbind (remote (RpcInsert filepath doc_id_to_pass)
                       (insert_into_index C filepath doc_id_to_pass)) (fun _ =>
              fbind (flog (FInsertCalled filepath doc_id_to_pass)) (fun _ =>
              fret (JMessage ("File '" ++ filename ++
                              "' uploaded and sent for indexing."), 200))))))
             (fun e =>
                fbind (flog (FUploadError e)) (fun _ =>
                fret (JError "An error occurred during file processing.", 500))))
          (clean_up filepath))
  end.

(** The locals of [upload_file], for a part named [name]: [docs_dir],
    [filepath] and [doc_id_to_pass]; and the requests it turns down. *)
Definition docs_dir : string := path_join (root_path F) "documents".

Definition upload_path (name : string) : string :=
  path_join docs_dir (secure_filename F name).

Definition doc_id_to_pass (request : Upload) (name : string) : option string :=
  if filename_as_doc_id request then Some (secure_filename F name) else None.

Definition turned_down (request : Upload) : bool :=
  match file request with
  | None => true
  | Some name => negb (PyStr.truthy name)
  end.

(** [GET /getDocuments] *)
Definition get_documents : FM HttpResponse :=
  ftry
    (fbind (remote RpcList (get_documents_list C)) (fun document_list =>
     fret (JDocuments document_list, 200)))
    (fun e =>
       fbind (flog (FDocumentsError e)) (fun _ =>
       fret (JError "An error occurred while retrieving documents.", 500))).

(** [GET /] *)
Definition home : string :=
  "Hello, World! Welcome to the llama_index docker image!".

End Handlers.

Arguments root_path {Item Node Score Meta} f.
Arguments secure_filename {Item Node Score Meta} f _.
Arguments makedirs {Item Node Score Meta} f _ _.
Arguments save {Item Node Score Meta} f _ _.
Arguments exists_ {Item Node Score Meta} f _ _.
Arguments remove {Item Node Score Meta} f _ _.
Arguments link {Item Node Score Meta} f _.
Arguments source_nodes {Item Node Score Meta} f _.
Arguments item_node {Item Node Score Meta} f _.
Arguments node_text {Item Node Score Meta} f _.
Arguments item_similarity {Item Node Score Meta} f _.
Arguments node_id {Item Node Score Meta} f _.
Arguments node_start {Item Node Score Meta} f _.
Arguments node_end {Item Node Score Meta} f _.
Arguments remote {Item Node Score Meta} F {A} c op _.
Arguments source_of {Item Node Score Meta} F x node.
Arguments collect_sources {Item Node Score Meta} F items sources _.
Arguments response_source_nodes {Item Node Score Meta} F response.
Arguments query_index {Item Node Score Meta} F C text _.
Arguments clean_up {Item Node Score Meta} F filepath _.
Arguments do_makedirs {Item Node Score Meta} F docs_dir _.
Arguments do_save {Item Node Score Meta} F filepath _.
Arguments upload_file {Item Node Score Meta} F C request _.
Arguments get_documents {Item Node Score Meta} F C _.
Arguments docs_dir {Item Node Score Meta} F.
Arguments upload_path {Item Node Score Meta} F name.
Arguments doc_id_to_pass {Item Node Score Meta} F request name.

End FlaskDemo.

(** A front end whose environment works: files are saved and removed,
    the link delivers, the engine's responses carry no source. *)
Definition working_front : FlaskDemo.FrontEnd nat nat nat nat :=
  {| FlaskDemo.root_path := "/app";
     FlaskDemo.secure_filename := fun name => name;
     FlaskDemo.makedirs := fun _ _ => None;
     FlaskDemo.save := fun _ _ => None;
     FlaskDemo.exists_ := fun _ _ => true;
     FlaskDemo.remove := fun _ _ => None;
     FlaskDemo.link := fun _ => FlaskDemo.Delivered;
     FlaskDemo.source_nodes := fun _ => [];
     FlaskDemo.item_node := fun _ => None;
     FlaskDemo.node_text := fun _ => "";
     FlaskDemo.item_similarity := fun x => Ok x;
     FlaskDemo.node_id := fun _ => "";
     FlaskDemo.node_start := fun _ => Ok None;
     FlaskDemo.node_end := fun _ => Ok None |}.

(** The same front end with the server out of reach. *)
Definition cut_off_front : FlaskDemo.FrontEnd nat nat nat nat :=
  {| FlaskDemo.root_path := "/app";
     FlaskDemo.secure_filename := fun name => name;
     FlaskDemo.makedirs := fun _ _ => None;
     FlaskDemo.save := fun _ _ => None;
     FlaskDemo.exists_ := fun _ _ => true;
     FlaskDemo.remove := fun _ _ => None;
     FlaskDemo.link := fun _ => FlaskDemo.LostRequest "Connection refused";
     FlaskDemo.source_nodes := fun _ => [];
     FlaskDemo.item_node := fun _ => None;
     FlaskDemo.node_text := fun _ => "";
     FlaskDemo.item_similarity := fun x => Ok x;
     FlaskDemo.node_id := fun _ => "";
     FlaskDemo.node_start := fun _ => Ok None;
     FlaskDemo.node_end := fun _ => Ok None |}.

(** The server's collaborators when the front end is [working_front]:
    the file it saves is the one the server finds. *)
Definition behind_front : Collaborators :=
  {| path_exists := fun _ p => String.eqb p "/app/documents/notes.txt";
     load_data := load_data steady;
     insert_document := insert_document steady;
     persist := persist steady;
     pickle_dump := pickle_dump steady;
     engine_query := engine_query steady;
     setitem := setitem steady |}.

(** Both processes up, the server initialized on empty storage. *)
Definition both_ready : FlaskDemo.Both :=
  {| FlaskDemo.server := ready; FlaskDemo.front := [] |}.

(** Both processes up, [initialize_index] not run on the server. *)
Definition both_not_initialized : FlaskDemo.Both :=
  {| FlaskDemo.server := not_initialized; FlaskDemo.front := [] |}.

(* ===================================================================== *)
(** ** Strings and dicts *)
(* ===================================================================== *)

Lemma prefix_all n s : PyStr.len s <= n -> PyStr.prefix n s = s.
Proof.
  revert n; induction s as [|c s IH]; intros n H; simpl in *;
    [reflexivity|].
  destruct (PyStr.is_continuation c).
  - f_equal. apply IH. exact H.
  - destruct n as [|n]; [lia|]. f_equal. apply IH. lia.
Qed.

Lemma len_app a b :
  PyStr.len (a ++ b)%string = PyStr.len a + PyStr.len b.
Proof.
  induction a as [|c a IH]; simpl; [reflexivity|].
  destruct (PyStr.is_continuation c); rewrite IH; reflexivity.
Qed.

Lemma prefix_length n s : n <= PyStr.len s -> PyStr.len (PyStr.prefix n s) = n.
Proof.
  revert n; induction s as [|c s IH]; intros n H; simpl in *; [lia|].
  destruct (PyStr.is_continuation c) eqn:Hc.
  - simpl. rewrite Hc. apply IH. exact H.
  - destruct n as [|n]; [reflexivity|].
    simpl. rewrite Hc. f_equal. apply IH. lia.
Qed.

(** A string with more than [n] characters splits behind its [n]-th
    character. *)
Lemma prefix_split n s :
  n < PyStr.len s ->
  exists rest,
    s = (PyStr.prefix n s ++ rest)%string /\
    PyStr.begins_character rest = true.
Proof.
  revert n; induction s as [|c s IH]; intros n H; simpl in *; [lia|].
  destruct (PyStr.is_continuation c) eqn:Hc.
  - destruct (IH n H) as (rest & Hs & Hb).
    exists rest. split; [|exact Hb]. simpl. f_equal. exact Hs.
  - destruct n as [|n].
    + exists (String c s). split; [reflexivity|]. simpl. now rewrite Hc.
    + destruct (IH n) as (rest & Hs & Hb); [lia|].
      exists rest. split; [|exact Hb]. simpl. f_equal. exact Hs.
Qed.

(** The split behind the [n]-th character is the only one. *)
Lemma split_unique a : forall b a' b',
  (a ++ b)%string = (a' ++ b')%string ->
  PyStr.len a = PyStr.len a' ->
  PyStr.begins_character b = true -> PyStr.begins_character b' = true ->
  a = a'.
Proof.
  induction a as [|c a IH]; intros b [|c' a'] b' Heq Hlen Hb Hb'.
  - reflexivity.
  - exfalso. simpl in Heq. subst b. simpl in Hb, Hlen.
    destruct (PyStr.is_continuation c'); [discriminate Hb | discriminate Hlen].
  - exfalso. simpl in Heq. subst b'. simpl in Hb', Hlen.
    destruct (PyStr.is_continuation c); [discriminate Hb' | discriminate Hlen].
  - simpl in Heq. injection Heq as -> Heq.
    f_equal. apply (IH b a' b' Heq); [|exact Hb|exact Hb'].
    simpl in Hlen. destruct (PyStr.is_continuation c'); lia.
Qed.

Lemma string_app_nil_r a : (a ++ "")%string = a.
Proof. induction a as [|c a IH]; simpl; [reflexivity | now rewrite IH]. Qed.

Lemma preview_short t : PyStr.len t <= 200 -> preview t = t.
Proof.
  intro H. unfold preview.
  rewrite prefix_all by exact H.
  destruct (Nat.ltb_spec 200 (PyStr.len t)) as [H'|_]; [lia|].
  apply string_app_nil_r.
Qed.

Lemma preview_long t :
  200 < PyStr.len t ->
  preview t = (PyStr.prefix 200 t ++ "...")%string /\ PyStr.len (preview t) = 203.
Proof.
  intro H. unfold preview.
  destruct (Nat.ltb_spec 200 (PyStr.len t)) as [_|H']; [|lia].
  split; [reflexivity|].
  rewrite len_app, prefix_length by lia. reflexivity.
Qed.

Lemma starts_with_app p s : PyStr.starts_with p (p ++ s)%string = true.
Proof.
  induction p as [|c p IH]; simpl; [reflexivity|].
  now rewrite Ascii.eqb_refl, IH.
Qed.

Lemma contains_app_r pre e : PyStr.contains e (pre ++ e)%string = true.
Proof.
  induction pre as [|c pre IH].
  - simpl. destruct e as [|a e]; simpl; [reflexivity|].
    rewrite Ascii.eqb_refl. simpl.
    replace e with (e ++ "")%string at 2 by apply string_app_nil_r.
    now rewrite starts_with_app.
  - simpl. rewrite IH. apply orb_true_r.
Qed.

Lemma get_set_same k v d : PyDict.get k (PyDict.set k v d) = Some v.
Proof.
  induction d as [|[k' v'] d IH]; simpl.
  - now rewrite String.eqb_refl.
  - destruct (String.eqb k' k) eqn:E; simpl.
    + now rewrite String.eqb_refl.
    + now rewrite E.
Qed.

Lemma get_set_other k k' v d :
  k <> k' -> PyDict.get k' (PyDict.set k v d) = PyDict.get k' d.
Proof.
  intro N. induction d as [|[k0 v0] d IH]; simpl.
  - destruct (String.eqb_spec k k'); [contradiction | reflexivity].
  - destruct (String.eqb_spec k0 k) as [->|N0]; simpl.
    + destruct (String.eqb_spec k k'); [contradiction | reflexivity].
    + now rewrite IH.
Qed.

Lemma get_Some_In k v d : PyDict.get k d = Some v -> In (k, v) (PyDict.items d).
Proof.
  unfold PyDict.items.
  induction d as [|[k' v'] d IH]; simpl; [discriminate|].
  destruct (String.eqb_spec k' k) as [->|N]; intro H.
  - left. congruence.
  - right. now apply IH.
Qed.

Lemma note_id_nonempty ids k : note_id ids k <> [] .
Proof.
  unfold note_id. destruct (PyStr.mem k ids) eqn:E.
  - destruct ids; [discriminate E | discriminate].
  - destruct ids; discriminate.
Qed.

Lemma fold_note_id_nonempty ks ids :
  ids <> [] -> fold_left note_id ks ids <> [].
Proof.
  revert ids; induction ks as [|k ks IH]; intros ids H; simpl; [exact H|].
  apply IH, note_id_nonempty.
Qed.

(* ===================================================================== *)
(** ** Histories grow by appending *)
(* ===================================================================== *)

Lemma record_history e w : history (record e w) = history w ++ [e].
Proof. reflexivity. Qed.

Lemma events_since_app w w' evs :
  history w' = history w ++ evs -> events_since w w' = evs.
Proof.
  intro H. unfold events_since. rewrite H.
  rewrite skipn_app, skipn_all, Nat.sub_diag. reflexivity.
Qed.

(** A goal about [fst], [snd] and [events_since] of a run, once the run
    is known as [Hrun] and its history as [Hh]. *)
Ltac along Hrun Hh :=
  cbn zeta; rewrite Hrun; cbn [fst snd];
  rewrite ?(@events_since_app _ _ _ Hh).

(** The run stops here: name its events and final world by computing. *)
Ltac stops_here :=
  eexists; eexists; split; [reflexivity|]; cbn;
  split; [rewrite <- ?app_assoc; reflexivity|].

Lemma calls_app a b : calls (a ++ b) = calls a ++ calls b.
Proof.
  induction a as [|[m|c] a IH]; simpl; [reflexivity | exact IH | now rewrite IH].
Qed.

Lemma attempts_app a b : attempts (a ++ b) = attempts a ++ attempts b.
Proof.
  induction a as [|[] a IH]; simpl; try exact IH; [reflexivity|].
  now rewrite IH.
Qed.

Lemma inserted_by_app a b : inserted_by (a ++ b) = inserted_by a ++ inserted_by b.
Proof.
  induction a as [|[| | | | |d [e|]|] a IH]; simpl; try exact IH;
    [reflexivity|].
  now rewrite IH.
Qed.

Lemma inserted_by_In d cs :
  In d (inserted_by cs) <-> In (CInsertDocument d None) cs.
Proof.
  induction cs as [|[| | | | |d' [e|]|] cs IH]; simpl;
    try (rewrite IH; split; [now right | intros [H|H]; [discriminate H | exact H]]).
  - tauto.
  - rewrite IH. split; [intros [->|H]; auto | intros [H|H]; [left; congruence | now right]].
Qed.

Lemma attempts_In d cs :
  In d (attempts cs) <-> exists err, In (CInsertDocument d err) cs.
Proof.
  induction cs as [|[] cs IH]; simpl;
    try (rewrite IH; split;
         [intros [x H]; exists x; now right
         | intros [x [H|H]]; [discriminate H | now exists x]]).
  - split; [tauto | intros [_ []]].
  - rewrite IH. split.
    + intros [->|[x H]]; [eexists; left; reflexivity | exists x; now right].
    + intros [x [H|H]]; [left; congruence | right; now exists x].
Qed.


(* ===================================================================== *)
(** ** One iteration and the whole loop of [insert_into_index] *)
(* ===================================================================== *)

Section Runs.

Variable C : Collaborators.
Variable doc_file_path : string.
Variable doc_id : option string.

Lemma process_document_run document ids w ix :
  index w = Some ix ->
  exists err evs r w',
    process_document C doc_file_path doc_id document ids w = (r, w') /\
    history w' = history w ++ evs /\
    calls evs = [CInsertDocument (tag doc_file_path doc_id document) err] /\
    saved_index w' = saved_index w /\ pkl_file w' = pkl_file w /\
    match err with
    | Some _ =>
        r = Ok ids /\ stored_docs w' = stored_docs w /\ index w' = Some ix
    | None =>
        index w' = Some (ix ++ [tag doc_file_path doc_id document]) /\
        match stored_docs w with
        | ADict d =>
            r = Ok (note_id ids (id_ (tag doc_file_path doc_id document))) /\
            stored_docs w' = ADict (put_preview d (tag doc_file_path doc_id document))
        | NotADict _ =>
            ((exists e, r = Raised e) /\ stored_docs w' = stored_docs w) \/
            (r = Ok (note_id ids (id_ (tag doc_file_path doc_id document))) /\
             exists repr', stored_docs w' = NotADict repr')
        end
    end.
Proof.
  intro Hix.
  unfold process_document, bind, try_except, index_insert_document, log,
    update, ret, stored_docs_setitem.
  fold (tag doc_file_path doc_id document).
  destruct (negb (PyStr.truthy
              match doc_id with Some i => i | None => id_ document end)) eqn:Et.
  all: cbn [index record set_index]; rewrite Hix.
  all: match goal with
       | |- context [insert_document C ?h ?i ?d] =>
           destruct (insert_document C h i d) as [e|] eqn:Eo
       end.
  all: cbn [index record set_index stored_docs history].
  all: try (exists (Some e); eexists; eexists; eexists;
            split; [reflexivity|]; cbn;
            split; [rewrite <- ?app_assoc; reflexivity|];
            split; [reflexivity|]; auto).
  all: destruct (stored_docs w) as [d|o] eqn:Es.
  all: try match goal with
           | |- context [setitem C ?h ?o ?k ?v] =>
               destruct (setitem C h o k v) as [o'|e']
           end.
  all: exists None; eexists; eexists; eexists;
         (split; [reflexivity|]); cbn;
         (split; [rewrite <- ?app_assoc; reflexivity|]);
         (split; [reflexivity|]); rewrite ?Es; auto 10.
  all: repeat split; eauto.
Qed.

Lemma attempts_of_loop cs docs :
  Forall2 (attempt_of doc_file_path doc_id) cs docs ->
  attempts cs = map (tag doc_file_path doc_id) docs /\ persists cs = [] /\ dumps cs = [] /\
  (forall p r, ~ In (CLoadData p r) cs).
Proof.
  induction 1 as [|c d cs docs [err ->] _ (IHa & IHp & IHd & IHl)]; simpl.
  - repeat split; auto.
  - rewrite IHa. repeat split; auto.
    intros p r [H|H]; [discriminate H | exact (IHl p r H)].
Qed.

Lemma process_documents_dict documents : forall ids w ix d,
  index w = Some ix -> stored_docs w = ADict d ->
  exists evs w',
    process_documents C doc_file_path doc_id documents ids w =
      (Ok (fold_left note_id (map id_ (inserted_by (calls evs))) ids), w') /\
    history w' = history w ++ evs /\
    Forall2 (attempt_of doc_file_path doc_id) (calls evs) documents /\
    index w' = Some (ix ++ inserted_by (calls evs)) /\
    stored_docs w' = ADict (fold_left put_preview (inserted_by (calls evs)) d) /\
    saved_index w' = saved_index w /\ pkl_file w' = pkl_file w.
Proof.
  induction documents as [|document rest IH]; intros ids w ix d Hix Hs.
  - exists [], w. simpl. rewrite !app_nil_r. repeat split; auto.
  - destruct (@process_document_run document ids w ix Hix)
      as (err & evs1 & r & w1 & Hrun & Hh & Hc & Hsi & Hpk & Hcase).
    rewrite Hs in Hcase.
    assert (exists ids1 ix1 d1,
      r = Ok ids1 /\ index w1 = Some ix1 /\ stored_docs w1 = ADict d1 /\
      ids1 = fold_left note_id (map id_ (inserted_by (calls evs1))) ids /\
      ix1 = ix ++ inserted_by (calls evs1) /\
      d1 = fold_left put_preview (inserted_by (calls evs1)) d) as
      (ids1 & ix1 & d1 & -> & Hix1 & Hs1 & -> & -> & ->).
    { rewrite Hc. destruct err as [e|]; simpl.
      - destruct Hcase as (-> & Hsd & Hi). exists ids, ix, d.
        rewrite app_nil_r. auto 10.
      - destruct Hcase as (Hi & -> & Hsd). eauto 10. }
    destruct (IH (fold_left note_id (map id_ (inserted_by (calls evs1))) ids) _ _ _ Hix1 Hs1)
      as (evs2 & w2 & Hrun2 & Hh2 & Hc2 & Hi2 & Hs2 & Hsi2 & Hpk2).
    exists (evs1 ++ evs2), w2.
    simpl. unfold bind. rewrite Hrun, Hrun2.
    rewrite calls_app, inserted_by_app, map_app, !fold_left_app.
    repeat split.
    + rewrite Hh2, Hh. now rewrite app_assoc.
    + rewrite Hc. simpl. constructor; [now exists err | exact Hc2].
    + rewrite Hi2. now rewrite app_assoc.
    + exact Hs2.
    + congruence.
    + congruence.
Qed.

(** Whatever [stored_docs] is, the loop only calls [insert_document], on
    retagged parts, and touches the store only under the identifiers of
    parts that were inserted. *)
Lemma process_documents_any documents : forall ids w ix,
  index w = Some ix ->
  exists evs r w',
    process_documents C doc_file_path doc_id documents ids w = (r, w') /\
    history w' = history w ++ evs /\
    (forall c, In c (calls evs) ->
       exists part err, In part documents /\ c = CInsertDocument (tag doc_file_path doc_id part) err) /\
    (forall k, (forall p, In p (inserted_by (calls evs)) -> id_ p <> k) ->
       entry k (stored_docs w') = entry k (stored_docs w)) /\
    (isinstance_dict (stored_docs w') = isinstance_dict (stored_docs w)) /\
    saved_index w' = saved_index w /\ pkl_file w' = pkl_file w.
Proof.
  induction documents as [|document rest IH]; intros ids w ix Hix.
  - exists [], (Ok ids), w. simpl. rewrite app_nil_r.
    repeat split; auto. intros c [].
  - destruct (@process_document_run document ids w ix Hix)
      as (err & evs1 & r & w1 & Hrun & Hh & Hc & Hsi & Hpk & Hcase).
    assert (Hfirst : forall c, In c (calls evs1) ->
              exists part err0, In part (document :: rest) /\
                c = CInsertDocument (tag doc_file_path doc_id part) err0).
    { rewrite Hc. intros c [<-|[]]. exists document, err. split; [now left | reflexivity]. }
    assert (Hentry : forall k,
              (forall p, In p (inserted_by (calls evs1)) -> id_ p <> k) ->
              entry k (stored_docs w1) = entry k (stored_docs w)).
    { intros k Hk. rewrite Hc in Hk. destruct err as [e|]; simpl in Hk.
      - destruct Hcase as (_ & -> & _). reflexivity.
      - destruct Hcase as (_ & Hcase).
        destruct (stored_docs w) as [d|o].
        + destruct Hcase as (_ & ->). simpl. unfold put_preview.
          apply get_set_other. apply Hk. now left.
        + destruct Hcase as [(_ & ->)|(_ & o' & ->)]; reflexivity. }
    assert (Hdict : isinstance_dict (stored_docs w1) = isinstance_dict (stored_docs w)).
    { destruct err as [e|].
      - destruct Hcase as (_ & -> & _). reflexivity.
      - destruct Hcase as (_ & Hcase).
        destruct (stored_docs w) as [d|o].
        + destruct Hcase as (_ & ->). reflexivity.
        + destruct Hcase as [(_ & ->)|(_ & o' & ->)]; reflexivity. }
    destruct r as [ids1|e1].
    + assert (Hix1 : exists ix1, index w1 = Some ix1).
      { destruct err as [e|]; [destruct Hcase as (_ & _ & ->) | destruct Hcase as (-> & _)]; eauto. }
      destruct Hix1 as (ix1 & Hix1).
      destruct (IH ids1 w1 ix1 Hix1)
        as (evs2 & r2 & w2 & Hrun2 & Hh2 & Hc2 & He2 & Hd2 & Hsi2 & Hpk2).
      exists (evs1 ++ evs2), r2, w2.
      simpl. unfold bind. rewrite Hrun, Hrun2.
      repeat split.
      * rewrite Hh2, Hh. now rewrite app_assoc.
      * intros c. rewrite calls_app, in_app_iff. intros [H|H].
        -- exact (Hfirst c H).
        -- destruct (Hc2 c H) as (part & err0 & Hin & ->).
           exists part, err0. split; [now right | reflexivity].
      * intros k Hk. rewrite calls_app, inserted_by_app in Hk.
        rewrite He2, Hentry; [reflexivity | |];
          intros p Hp; apply Hk, in_app_iff; auto.
      * congruence.
      * congruence.
      * congruence.
    + exists evs1, (Raised e1), w1.
      simpl. unfold bind. rewrite Hrun.
      repeat split; auto.
Qed.

(** Whatever [stored_docs] is: the loop goes over the parts in order;
    it is left early only when the store is not a dict and refuses the
    assignment, right behind an insertion that returned. *)
Lemma process_documents_run documents : forall ids w ix,
  index w = Some ix ->
  exists evs r w' done rest,
    process_documents C doc_file_path doc_id documents ids w = (r, w') /\
    history w' = history w ++ evs /\
    isinstance_dict (stored_docs w') = isinstance_dict (stored_docs w) /\
    saved_index w' = saved_index w /\ pkl_file w' = pkl_file w /\
    index w' = Some (ix ++ inserted_by (calls evs)) /\
    documents = done ++ rest /\
    Forall2 (attempt_of doc_file_path doc_id) (calls evs) done /\
    match r with
    | Ok ids' =>
        rest = [] /\
        ids' = fold_left note_id (map id_ (inserted_by (calls evs))) ids
    | Raised _ =>
        isinstance_dict (stored_docs w) = false /\
        exists pre d, calls evs = pre ++ [CInsertDocument d None]
    end.
Proof.
  induction documents as [|document rest0 IH]; intros ids w ix Hix.
  - exists [], (Ok ids), w, [], []. simpl. rewrite !app_nil_r.
    repeat split; auto.
  - destruct (@process_document_run document ids w ix Hix)
      as (err & evs1 & r1 & w1 & Hrun & Hh & Hc & Hsi & Hpk & Hcase).
    assert (Hstep :
      index w1 = Some (ix ++ inserted_by (calls evs1)) /\
      isinstance_dict (stored_docs w1) = isinstance_dict (stored_docs w) /\
      (r1 = Ok (fold_left note_id (map id_ (inserted_by (calls evs1))) ids) \/
       ((exists e, r1 = Raised e) /\ err = None /\
        isinstance_dict (stored_docs w) = false))).
    { rewrite Hc. destruct err as [e|]; simpl.
      - destruct Hcase as (-> & -> & ->). rewrite app_nil_r. auto.
      - destruct Hcase as (-> & Hcase). split; [reflexivity|].
        destruct (stored_docs w) as [d|o].
        + destruct Hcase as (-> & ->). auto.
        + destruct Hcase as [(He & ->)|(-> & o' & ->)]; auto. }
    destruct Hstep as (Hix1 & Hd1 & [->|((e1 & ->) & -> & Hnd)]).
    + destruct (IH (fold_left note_id (map id_ (inserted_by (calls evs1))) ids)
                  w1 _ Hix1)
        as (evs2 & r2 & w2 & done2 & rest2 & Hrun2 & Hh2 & Hd2 & Hsi2 & Hpk2 &
            Hix2 & Hsplit & Hloop & Hr).
      exists (evs1 ++ evs2), r2, w2, (document :: done2), rest2.
      simpl. unfold bind. rewrite Hrun, Hrun2.
      rewrite calls_app, inserted_by_app, Hc.
      repeat split; try congruence.
      * rewrite Hh2, Hh. now rewrite app_assoc.
      * rewrite Hix2, Hc. now rewrite app_assoc.
      * simpl. constructor; [now exists err | exact Hloop].
      * destruct r2 as [ids'|e2].
        -- destruct Hr as (-> & ->). split; [reflexivity|].
           rewrite Hc, map_app, fold_left_app. reflexivity.
        -- destruct Hr as (Hnd & pre & d & ->). split; [congruence|].
           exists (CInsertDocument (tag doc_file_path doc_id document) err :: pre), d.
           reflexivity.
    + exists evs1, (Raised e1), w1, [document], rest0.
      simpl. unfold bind. rewrite Hrun, Hc.
      repeat split; auto.
      * rewrite Hix1, Hc. reflexivity.
      * constructor; [now exists None | constructor].
      * exists [], (tag doc_file_path doc_id document). reflexivity.
Qed.

End Runs.

(* ===================================================================== *)
(** ** Whole runs of [insert_into_index] *)
(* ===================================================================== *)

Section InsertRuns.

Variable C : Collaborators.

Lemma persist_changes_run ids w ix :
  index w = Some ix ->
  exists ep eq evs w',
    persist_changes C ids w = (Ok tt, w') /\
    history w' = history w ++ evs /\
    calls evs = [CPersistIndex ix ep; CPickleDump (stored_docs w) eq] /\
    index w' = index w /\ stored_docs w' = stored_docs w /\
    (ep = None -> saved_index w' = Some (Loadable ix)) /\
    (eq = None -> pkl_file w' = Some (Pickled (stored_docs w))) /\
    ((forall h i, persist C h i = Written) -> ep = None) /\
    ((forall h o, pickle_dump C h o = Written) -> eq = None).
Proof.
  intro Hix.
  unfold persist_changes, bind, try_except, log, update,
    storage_context_persist, pickle_dump_stored_docs.
  cbn [index record]. rewrite Hix.
  match goal with
  | |- context [persist C ?h ?i] =>
      destruct (persist C h i) as [|e1 r1] eqn:E1
  end.
  all: cbn [stored_docs record set_saved_index history].
  all: match goal with
       | |- context [pickle_dump C ?h ?o] =>
           destruct (pickle_dump C h o) as [|e2 r2] eqn:E2
       end.
  all: do 4 eexists; (split; [reflexivity|]); cbn;
         (split; [rewrite <- ?app_assoc; reflexivity|]);
         (split; [reflexivity|]); repeat split; auto; try discriminate.
  all: intro Hall; rewrite Hall in *; discriminate.
Qed.

Lemma insert_into_index_dict doc_file_path doc_id w d :
  stored_docs w = ADict d ->
  exists evs w',
    insert_into_index C doc_file_path doc_id w = (Ok tt, w') /\
    history w' = history w ++ evs /\
    stored_docs w' = ADict (fold_left put_preview (inserted_by (calls evs)) d) /\
    insert_calls_shape doc_file_path doc_id w w' (calls evs).
Proof.
  intro Hs.
  unfold insert_calls_shape, insert_into_index, bind, read.
  destruct (index w) as [ix|] eqn:Hix.
  2:{ stops_here. split; [exact Hs|]. left. auto. }
  destruct (os_path_exists C doc_file_path w) as [r0 w0] eqn:Hex.
  unfold os_path_exists, read in Hex. injection Hex as <- <-.
  match goal with
  | |- context [negb ?b] => destruct b
  end; cbn [negb].
  2:{ stops_here. split; [exact Hs|]. left. auto. }
  unfold try_except, bind, log, update, reader_load_data.
  cbn [history record].
  match goal with
  | |- context [load_data C ?h ?p] => destruct (load_data C h p) as [docs|e]
  end.
  2:{ stops_here.
      split; [exact Hs|]. right; left. exists e. auto. }
  destruct docs as [|document rest].
  { stops_here.
    split; [exact Hs|]. right; right; left. exists [], [].
    repeat split; auto. }
  set (w1 := record (Logged (LLoaded _)) _).
  assert (Hix1 : index w1 = Some ix) by exact Hix.
  assert (Hs1 : stored_docs w1 = ADict d) by exact Hs.
  destruct (@process_documents_dict C doc_file_path doc_id
              (document :: rest) [] w1 ix d Hix1 Hs1)
    as (evs & w2 & Hrun & Hh & Hc & Hi & Hsd & Hsi & Hpk).
  rewrite Hrun.
  destruct (inserted_by (calls evs)) as [|p ps] eqn:Hins.
  - simpl fold_left in *. cbn.
    eexists; eexists. split; [reflexivity|]. cbn.
    split; [rewrite Hh; subst w1; cbn; rewrite <- !app_assoc; reflexivity|].
    rewrite !calls_app. cbn. rewrite inserted_by_app, Hins. cbn.
    split; [exact Hsd|].
    right; right; left. exists (document :: rest), (calls evs).
    rewrite app_nil_r.
    repeat split; auto.
  - destruct (fold_left note_id (map id_ (p :: ps)) []) as [|i ids] eqn:Hids.
    { exfalso. revert Hids. simpl. apply fold_note_id_nonempty.
      apply note_id_nonempty. }
    destruct (@persist_changes_run (i :: ids) w2 _ Hi)
      as (ep & eq & evs3 & w3 & Hrun3 & Hh3 & Hc3 & Hi3 & Hs3 & Hw1 & Hw2 & _).
    rewrite Hrun3.
    eexists; eexists. split; [reflexivity|].
    split; [rewrite Hh3, Hh; subst w1; cbn; rewrite <- !app_assoc; reflexivity|].
    rewrite !calls_app. cbn. rewrite Hc3, inserted_by_app, Hins. cbn.
    rewrite app_nil_r.
    split; [rewrite Hs3, Hsd; reflexivity|].
    right; right; right.
    exists (document :: rest), (calls evs), (ix ++ p :: ps), ep, (stored_docs w2), eq.
    repeat split; auto; try congruence. rewrite Hi3. exact Hi.
Qed.

Lemma persist_changes_frame ids w :
  exists evs w',
    persist_changes C ids w = (Ok tt, w') /\
    history w' = history w ++ evs /\
    attempts (calls evs) = [] /\
    stored_docs w' = stored_docs w.
Proof.
  unfold persist_changes, bind, try_except, log, update,
    storage_context_persist, pickle_dump_stored_docs.
  cbn [index record].
  destruct (index w) as [ix|].
  1: match goal with
     | |- context [persist C ?h ?i] => destruct (persist C h i) as [|e1 r1]
     end.
  all: cbn [stored_docs record set_saved_index history].
  all: match goal with
       | |- context [pickle_dump C ?h ?o] =>
           destruct (pickle_dump C h o) as [|e2 r2]
       end.
  all: do 2 eexists; (split; [reflexivity|]); cbn;
         (split; [rewrite <- ?app_assoc; reflexivity|]);
         (split; [reflexivity|]); auto.
Qed.

(** Whatever [stored_docs] is: the call returns [None], hands to the index
    only retagged parts of what the reader returned, and touches the store
    only under identifiers of parts that were inserted. *)
Lemma insert_into_index_any doc_file_path doc_id w :
  exists evs w',
    insert_into_index C doc_file_path doc_id w = (Ok tt, w') /\
    history w' = history w ++ evs /\
    (forall d' err, In (CInsertDocument d' err) (calls evs) ->
       exists docs part,
         In (CLoadData doc_file_path (Ok docs)) (calls evs) /\
         In part docs /\ d' = tag doc_file_path doc_id part) /\
    (forall k, (forall p, In p (inserted_by (calls evs)) -> id_ p <> k) ->
       entry k (stored_docs w') = entry k (stored_docs w)).
Proof.
  unfold insert_into_index, bind, read.
  destruct (index w) as [ix|] eqn:Hix.
  2:{ stops_here. split; [intros ? ? []|]. auto. }
  destruct (os_path_exists C doc_file_path w) as [r0 w0] eqn:Hex.
  unfold os_path_exists, read in Hex. injection Hex as <- <-.
  match goal with
  | |- context [negb ?b] => destruct b
  end; cbn [negb].
  2:{ stops_here. split; [intros ? ? []|]. auto. }
  unfold try_except, bind, log, update, reader_load_data.
  cbn [history record].
  match goal with
  | |- context [load_data C ?h ?p] => destruct (load_data C h p) as [docs|e]
  end.
  2:{ stops_here.
      split; [intros ? ? [H|[]]; discriminate H|]. auto. }
  destruct docs as [|document rest].
  { stops_here.
    split; [intros ? ? [H|[]]; discriminate H|]. auto. }
  set (w1 := record (Logged (LLoaded _)) _).
  assert (Hix1 : index w1 = Some ix) by exact Hix.
  destruct (@process_documents_any C doc_file_path doc_id
              (document :: rest) [] w1 ix Hix1)
    as (evs & r & w2 & Hrun & Hh & Hc & He & _ & _ & _).
  rewrite Hrun.
  assert (Hfrom : forall evs3 d' err,
            attempts (calls evs3) = [] ->
            In (CInsertDocument d' err)
               (CLoadData doc_file_path (Ok (document :: rest))
                  :: calls evs ++ calls evs3) ->
            exists docs part,
              In (CLoadData doc_file_path (Ok docs))
                 (CLoadData doc_file_path (Ok (document :: rest))
                    :: calls evs ++ calls evs3) /\
              In part docs /\ d' = tag doc_file_path doc_id part).
  { intros evs3 d' err H3 [H|H]; [discriminate H|].
    apply in_app_iff in H. destruct H as [H|H].
    - destruct (Hc _ H) as (part & err0 & Hin & Heq).
      exists (document :: rest), part.
      split; [now left|]. split; [exact Hin | congruence].
    - exfalso. assert (In d' (attempts (calls evs3))) as Hin
        by (apply attempts_In; eauto).
      rewrite H3 in Hin. exact Hin. }
  assert (Hstore : forall evs3 k,
            attempts (calls evs3) = [] ->
            (forall p, In p (inserted_by (calls evs ++ calls evs3)) -> id_ p <> k) ->
            entry k (stored_docs w2) = entry k (stored_docs w)).
  { intros evs3 k _ Hk. rewrite He; [reflexivity|].
    intros p Hp. apply Hk. rewrite inserted_by_app, in_app_iff. now left. }
  destruct r as [[|i ids]|e].
  - eexists; eexists. split; [reflexivity|].
    split; [cbn; rewrite Hh; subst w1; cbn; rewrite <- !app_assoc; reflexivity|].
    rewrite !calls_app. cbn. split.
    + intros d' err. apply (Hfrom [Logged LNothingToPersist]). reflexivity.
    + intros k. apply (Hstore [Logged LNothingToPersist]). reflexivity.
  - destruct (persist_changes_frame (i :: ids) w2)
      as (evs3 & w3 & Hrun3 & Hh3 & Ha3 & Hs3).
    rewrite Hrun3.
    eexists; eexists. split; [reflexivity|].
    split; [rewrite Hh3, Hh; subst w1; cbn; rewrite <- !app_assoc; reflexivity|].
    rewrite !calls_app. cbn. split.
    + intros d' err. now apply Hfrom.
    + intros k. rewrite Hs3. now apply Hstore.
  - eexists; eexists. split; [reflexivity|].
    split; [cbn; rewrite Hh; subst w1; cbn; rewrite <- !app_assoc; reflexivity|].
    rewrite !calls_app. cbn. split.
    + intros d' err. apply (Hfrom [Logged (LProcessingError doc_file_path e)]).
      reflexivity.
    + intros k. apply (Hstore [Logged (LProcessingError doc_file_path e)]).
      reflexivity.
Qed.

(** One [insert_into_index], whatever [stored_docs] is.  Either both
    writes are started, once, behind a loop that went over every part
    and in which a part was accepted; or none is started and both
    artifacts are as before, and then a part was accepted only if the
    store is not a dict and the call ended right behind that insertion. *)
Lemma insert_into_index_run doc_file_path doc_id w :
  exists evs w',
    insert_into_index C doc_file_path doc_id w = (Ok tt, w') /\
    history w' = history w ++ evs /\
    isinstance_dict (stored_docs w') = isinstance_dict (stored_docs w) /\
    (forall docs, In (CLoadData doc_file_path (Ok docs)) (calls evs) ->
       exists done rest,
         docs = done ++ rest /\
         attempts (calls evs) = map (tag doc_file_path doc_id) done /\
         (rest <> [] ->
          exists pre d, calls evs = pre ++ [CInsertDocument d None])) /\
    ((exists ix ep eq,
        inserted_by (calls evs) <> [] /\
        index w' = Some ix /\
        persists (calls evs) = [CPersistIndex ix ep] /\
        dumps (calls evs) = [CPickleDump (stored_docs w') eq] /\
        (ep = None -> saved_index w' = Some (Loadable ix)) /\
        (eq = None -> pkl_file w' = Some (Pickled (stored_docs w'))) /\
        ((forall h i, persist C h i = Written) -> ep = None) /\
        ((forall h o, pickle_dump C h o = Written) -> eq = None))
     \/
     (persists (calls evs) = [] /\ dumps (calls evs) = [] /\
      saved_index w' = saved_index w /\ pkl_file w' = pkl_file w /\
      (inserted_by (calls evs) <> [] ->
       isinstance_dict (stored_docs w) = false /\
       exists pre d, calls evs = pre ++ [CInsertDocument d None]))).
Proof.
  unfold insert_into_index, bind, read.
  destruct (index w) as [ix|] eqn:Hix.
  2:{ stops_here. split; [reflexivity|]. split; [intros ? []|].
      right. repeat split; auto; contradiction. }
  destruct (os_path_exists C doc_file_path w) as [r0 w0] eqn:Hex.
  unfold os_path_exists, read in Hex. injection Hex as <- <-.
  match goal with
  | |- context [negb ?b] => destruct b
  end; cbn [negb].
  2:{ stops_here. split; [reflexivity|]. split; [intros ? []|].
      right. repeat split; auto; contradiction. }
  unfold try_except, bind, log, update, reader_load_data.
  cbn [history record].
  match goal with
  | |- context [load_data C ?h ?p] => destruct (load_data C h p) as [docs|e]
  end.
  2:{ stops_here. split; [reflexivity|].
      split; [intros ? [H|[]]; discriminate H|].
      right. repeat split; auto; contradiction. }
  destruct docs as [|document rest0].
  { stops_here. split; [reflexivity|]. split.
    - intros docs [H|[]]. injection H as <-.
      exists [], []. repeat split; auto. intro H. contradiction.
    - right. repeat split; auto; contradiction. }
  set (w1 := record (Logged (LLoaded _)) _).
  assert (Hix1 : index w1 = Some ix) by exact Hix.
  destruct (@process_documents_run C doc_file_path doc_id
              (document :: rest0) [] w1 ix Hix1)
    as (evs & r & w2 & done & rest & Hrun & Hh & Hd & Hsi & Hpk & Hix2 &
        Hsplit & Hloop & Hr).
  rewrite Hrun.
  destruct (attempts_of_loop _ _ _ _ Hloop) as (Ha & Hp & Hdu & Hl).
  assert (Hparts : forall tail docs,
            attempts tail = [] ->
            (forall p r1, ~ In (CLoadData p r1) tail) ->
            In (CLoadData doc_file_path (Ok docs))
               (CLoadData doc_file_path (Ok (document :: rest0))
                  :: calls evs ++ tail) ->
            docs = done ++ rest /\
            attempts (CLoadData doc_file_path (Ok (document :: rest0))
                        :: calls evs ++ tail) =
              map (tag doc_file_path doc_id) done).
  { intros tail docs Ht Hnl Hin. cbn. rewrite attempts_app, Ht, app_nil_r.
    split; [|exact Ha].
    destruct Hin as [H|H]; [injection H as <-; exact Hsplit|].
    apply in_app_iff in H. destruct H as [H|H];
      [destruct (Hl _ _ H) | destruct (Hnl _ _ H)]. }
  destruct r as [[|i ids]|e].
  - destruct Hr as (-> & Hids).
    assert (Hnone : inserted_by (calls evs) = []).
    { destruct (inserted_by (calls evs)) as [|p ps]; [reflexivity|].
      exfalso. symmetry in Hids. revert Hids. simpl.
      apply fold_note_id_nonempty, note_id_nonempty. }
    eexists; eexists. split; [reflexivity|].
    split; [cbn; rewrite Hh; subst w1; cbn; rewrite <- !app_assoc; reflexivity|].
    rewrite !calls_app. cbn. unfold persists, dumps in *. cbn.
    rewrite !filter_app, inserted_by_app, Hp, Hdu, Hnone. cbn.
    split; [exact Hd|]. split.
    + intros docs Hin.
      destruct (Hparts [] docs eq_refl (fun _ _ H => H) Hin) as (Hsp & Hat).
      exists done, []. split; [exact Hsp|]. split; [exact Hat|].
      intro H. contradiction.
    + right. repeat split; auto; contradiction.
  - destruct Hr as (-> & Hids).
    assert (Hsome : inserted_by (calls evs) <> []).
    { intro H. rewrite H in Hids. discriminate Hids. }
    destruct (@persist_changes_run (i :: ids) w2 _ Hix2)
      as (ep & eq & evs3 & w3 & Hrun3 & Hh3 & Hc3 & Hi3 & Hs3 & Hw1 & Hw2 &
          Ho1 & Ho2).
    rewrite Hrun3.
    eexists; eexists. split; [reflexivity|].
    split; [rewrite Hh3, Hh; subst w1; cbn; rewrite <- !app_assoc; reflexivity|].
    rewrite !calls_app. cbn. rewrite Hc3. unfold persists, dumps in *. cbn.
    rewrite !filter_app, inserted_by_app, Hp, Hdu. cbn. rewrite app_nil_r.
    split; [rewrite Hs3; exact Hd|]. split.
    + intros docs Hin.
      destruct (Hparts [CPersistIndex (ix ++ inserted_by (calls evs)) ep;
                        CPickleDump (stored_docs w2) eq] docs eq_refl) as (Hsp & Hat).
      * intros p r1 [H|[H|[]]]; discriminate H.
      * exact Hin.
      * exists done, []. split; [exact Hsp|]. split; [exact Hat|].
        intro H. contradiction.
    + left. exists (ix ++ inserted_by (calls evs)), ep, eq.
      rewrite Hs3. repeat split; auto.
      rewrite Hi3. exact Hix2.
  - destruct Hr as (Hnd & pre & d & Hlast).
    eexists; eexists. split; [reflexivity|].
    split; [cbn; rewrite Hh; subst w1; cbn; rewrite <- !app_assoc; reflexivity|].
    rewrite !calls_app. cbn. unfold persists, dumps in *. cbn.
    rewrite !filter_app, inserted_by_app, Hp, Hdu, !app_nil_r. cbn.
    split; [exact Hd|]. split.
    + intros docs Hin. rewrite <- (app_nil_r (calls evs)) in Hin.
      destruct (Hparts [] docs eq_refl (fun _ _ H => H) Hin) as (Hsp & Hat).
      rewrite app_nil_r in Hat.
      exists done, rest. split; [exact Hsp|]. split; [exact Hat|].
      intros _. rewrite Hlast.
      exists (CLoadData doc_file_path (Ok (document :: rest0)) :: pre), d.
      reflexivity.
    + right. repeat split; auto.
      rewrite Hlast.
      exists (CLoadData doc_file_path (Ok (document :: rest0)) :: pre), d.
      reflexivity.
Qed.

End InsertRuns.

(* ===================================================================== *)
(** ** [query_index] *)
(* ===================================================================== *)

Lemma query_index_ready C w ix query_text :
  index w = Some ix ->
  exists outcome w',
    query_index C query_text w =
      (Ok match outcome with
          | Ok response => RResponse response
          | Raised e => RStr ("Error during query: " ++ e)
          end, w') /\
    outcome = engine_query C
                (history w ++ [Logged (LQuerying (PyStr.prefix 50 query_text))])
                ix query_text /\
    history w' =
      history w ++
        [ Logged (LQuerying (PyStr.prefix 50 query_text));
          Called (CQuery query_text
                    match outcome with Ok _ => None | Raised e => Some e end);
          Logged match outcome with Ok _ => LQueryOk | Raised e => LQueryError e end ] /\
    index w' = index w /\ stored_docs w' = stored_docs w /\
    saved_index w' = saved_index w /\ pkl_file w' = pkl_file w.
Proof.
  intro Hix.
  unfold query_index, bind, read, try_except, query_engine_query, log, update, ret.
  rewrite Hix. cbn [history record].
  match goal with
  | |- context [engine_query C ?h ?i ?t] =>
      destruct (engine_query C h i t) as [response|e] eqn:E
  end.
  - exists (Ok response). eexists. split; [reflexivity|]. cbn.
    rewrite <- !app_assoc. auto 10.
  - exists (Raised e). eexists. split; [reflexivity|]. cbn.
    rewrite <- !app_assoc. auto 10.
Qed.

(** C1 (as the code has it): [query_index] checks nothing about its text.
    On an initialized index every text, the empty one included, is sent to
    the query engine exactly once and unchanged, and the caller gets the
    engine's response, or the error string when the engine raised. *)
Theorem query_index_sends_any_text :
  forall C w ix query_text,
    index w = Some ix ->
    let run := query_index C query_text w in
    queries (calls (events_since w (snd run))) = [query_text] /\
    fst run =
      Ok match engine_query C
                 (history w ++ [Logged (LQuerying (PyStr.prefix 50 query_text))])
                 ix query_text with
         | Ok response => RResponse response
         | Raised e => RStr ("Error during query: " ++ e)
         end.
Proof.
  intros C w ix query_text Hix.
  destruct (@query_index_ready C w ix query_text Hix)
    as (outcome & w' & Hrun & Ho & Hh & _).
  along Hrun Hh. subst outcome. split; reflexivity.
Qed.

Lemma query_index_sends_any_text_witness :
  queries (calls (events_since ready (snd (query_index steady "" ready)))) = [""] /\
  fst (query_index steady "" ready) =
    Ok (RResponse {| response_text := "An answer." |}).
Proof.
  apply (@query_index_sends_any_text steady ready empty_index "").
  reflexivity.
Defined.

(** C1 fails: the empty text reaches the query engine, and what comes
    back is the engine's response, not an error. *)
Lemma empty_query_reaches_engine :
  fst (query_index steady "" ready) =
    Ok (RResponse {| response_text := "An answer." |}) /\
  calls (history (snd (query_index steady "" ready))) = [CQuery "" None].
Proof. split; reflexivity. Qed.

(** C2 (as the code has it): when the engine raises [e], the caller gets
    the string ["Error during query: "] followed by [e] itself, and [e] is
    logged as an error. *)
Theorem query_index_returns_error_text :
  forall C w ix query_text e,
    index w = Some ix ->
    engine_query C
      (history w ++ [Logged (LQuerying (PyStr.prefix 50 query_text))])
      ix query_text = Raised e ->
    let run := query_index C query_text w in
    fst run = Ok (RStr ("Error during query: " ++ e)) /\
    PyStr.contains e ("Error during query: " ++ e) = true /\
    logs (events_since w (snd run)) =
      [LQuerying (PyStr.prefix 50 query_text); LQueryError e] /\
    level (LQueryError e) = ERROR.
Proof.
  intros C w ix query_text e Hix He.
  destruct (@query_index_ready C w ix query_text Hix)
    as (outcome & w' & Hrun & Ho & Hh & _).
  rewrite He in Ho. subst outcome.
  along Hrun Hh.
  repeat split. apply contains_app_r.
Qed.

Lemma query_index_returns_error_text_witness :
  fst (query_index offline "what is an index?" ready) =
    Ok (RStr "Error during query: Connection error: host api.openai.com, key sk-test").
Proof.
  apply (@query_index_returns_error_text offline ready empty_index
           "what is an index?"
           "Connection error: host api.openai.com, key sk-test");
    reflexivity.
Defined.

(** C2 fails: the string handed to the caller contains the raw text of
    the engine's error. *)
Lemma engine_error_text_reaches_caller :
  exists s,
    fst (query_index offline "what is an index?" ready) = Ok (RStr s) /\
    PyStr.contains "Connection error: host api.openai.com, key sk-test" s = true.
Proof. eexists. split; reflexivity. Qed.

(* ===================================================================== *)
(** ** Before [initialize_index] *)
(* ===================================================================== *)

(** C3 (as the code has it): while [index] is [None], [query_index]
    returns the string ["Error: Index not ready."] without calling the
    engine; [insert_into_index] returns [None] like every other call of
    it, and only logs an error.  Neither changes anything else. *)
Theorem not_ready_operations :
  forall C w,
    index w = None ->
    (forall query_text,
       query_index C query_text w =
         (Ok (RStr "Error: Index not ready."), record (Logged LQueryNotReady) w)) /\
    (forall doc_file_path doc_id,
       insert_into_index C doc_file_path doc_id w =
         (Ok tt, record (Logged LInsertNotReady) w)) /\
    level LQueryNotReady = ERROR /\ level LInsertNotReady = ERROR.
Proof.
  intros C w Hix. repeat split.
  - intro query_text. unfold query_index, bind, read. rewrite Hix. reflexivity.
  - intros doc_file_path doc_id.
    unfold insert_into_index, bind, read. rewrite Hix. reflexivity.
Qed.

Lemma not_ready_operations_witness :
  query_index steady "hello" not_initialized =
    (Ok (RStr "Error: Index not ready."),
     record (Logged LQueryNotReady) not_initialized) /\
  insert_into_index steady notes_path None not_initialized =
    (Ok tt, record (Logged LInsertNotReady) not_initialized).
Proof.
  destruct (@not_ready_operations steady not_initialized eq_refl)
    as (Hq & Hi & _).
  split; [apply Hq | apply Hi].
Defined.

(** C3 fails for insert: before initialization the caller of
    [insert_into_index] gets exactly what the caller of an insert that
    indexed a document gets. *)
Lemma insert_before_init_returns_like_success :
  index not_initialized = None /\
  fst (insert_into_index steady notes_path None not_initialized) = Ok tt /\
  fst (insert_into_index steady notes_path None ready) = Ok tt /\
  inserted_by (calls (history (snd (insert_into_index steady notes_path None ready))))
    = [notes_part] /\
  inserted_by (calls (history (snd (insert_into_index steady notes_path None not_initialized))))
    = [].
Proof. repeat split; reflexivity. Qed.

(* ===================================================================== *)
(** ** The effective identifier *)
(* ===================================================================== *)

Lemma effective_doc_id_given doc_file_path i document :
  i <> "" -> effective_doc_id doc_file_path (Some i) document = i.
Proof.
  intro H. unfold effective_doc_id.
  destruct i; [contradiction | reflexivity].
Qed.

Lemma effective_doc_id_loader doc_file_path document :
  id_ document <> "" ->
  effective_doc_id doc_file_path None document = id_ document.
Proof.
  intro H. unfold effective_doc_id.
  destruct (id_ document); [contradiction | reflexivity].
Qed.

Lemma effective_doc_id_basename doc_file_path doc_id document :
  doc_id = Some "" \/ (doc_id = None /\ id_ document = "") ->
  effective_doc_id doc_file_path doc_id document = PyStr.basename doc_file_path.
Proof.
  unfold effective_doc_id. intros [->|[-> ->]]; reflexivity.
Qed.

Lemma has_slash_app_false a b :
  PyStr.has_slash (a ++ b)%string = PyStr.has_slash a || PyStr.has_slash b.
Proof.
  induction a as [|c a IH]; simpl; [reflexivity|].
  now rewrite IH, orb_assoc.
Qed.

Lemma basename_cons c p :
  PyStr.basename (String c p) =
    if PyStr.is_slash c then PyStr.basename p
    else if PyStr.has_slash p then PyStr.basename p else String c p.
Proof. reflexivity. Qed.

(** [basename] is the last component of a path. *)
Lemma basename_join dir name :
  PyStr.has_slash name = false ->
  PyStr.basename (dir ++ "/" ++ name)%string = name.
Proof.
  intro H. induction dir as [|c dir IH].
  - destruct name as [|a name]; [reflexivity|].
    simpl in *. apply orb_false_iff in H. destruct H as [-> ->]. reflexivity.
  - change (String c dir ++ "/" ++ name)%string
      with (String c (dir ++ "/" ++ name)).
    rewrite basename_cons, IH, has_slash_app_false.
    change (PyStr.has_slash ("/" ++ name)) with true.
    rewrite orb_true_r. destruct (PyStr.is_slash c); reflexivity.
Qed.

(** C5 (as the code has it): every document handed to the index is a
    part returned by the reader for this path, with its text unchanged
    and retagged with: the caller's [doc_id] when that was given and is
    not empty; the reader's [id_] when no [doc_id] was given and [id_] is
    not empty; the base name of the path in the two remaining cases, an
    empty [doc_id] being one of them. *)
Theorem inserted_parts_carry_effective_id :
  forall C w doc_file_path doc_id d' err,
    let cs := calls (events_since w
                (snd (insert_into_index C doc_file_path doc_id w))) in
    In (CInsertDocument d' err) cs ->
    exists docs part,
      In (CLoadData doc_file_path (Ok docs)) cs /\ In part docs /\
      text d' = text part /\
      (forall i, doc_id = Some i -> i <> "" -> id_ d' = i) /\
      (doc_id = None -> id_ part <> "" -> id_ d' = id_ part) /\
      (doc_id = Some "" \/ (doc_id = None /\ id_ part = "") ->
       id_ d' = PyStr.basename doc_file_path).
Proof.
  intros C w doc_file_path doc_id d' err.
  destruct (insert_into_index_any C doc_file_path doc_id w)
    as (evs & w' & Hrun & Hh & Hfrom & _).
  along Hrun Hh.
  intro Hin. destruct (Hfrom _ _ Hin) as (docs & part & Hload & Hpart & ->).
  exists docs, part. unfold tag, with_id. cbn [id_ text].
  repeat split; auto.
  - intros i -> Hi. now apply effective_doc_id_given.
  - intros -> Hi. now apply effective_doc_id_loader.
  - apply effective_doc_id_basename.
Qed.

Lemma inserted_parts_carry_effective_id_witness :
  id_ (tag notes_path None notes_part) = id_ notes_part.
Proof.
  destruct (@inserted_parts_carry_effective_id steady ready notes_path None
              (tag notes_path None notes_part) None)
    as (docs & part & Hload & Hpart & _ & _ & Hloader & _).
  - vm_compute. right. left. reflexivity.
  - vm_compute in Hload.
    destruct Hload as [H|[H|[H|[H|[]]]]]; try discriminate H.
    injection H as <-. destruct Hpart as [<-|[]].
    apply Hloader; [reflexivity | discriminate].
Defined.

(** C5 fails: a caller-supplied [doc_id] that is the empty string is not
    the tag; the base name of the path is, although the reader had
    assigned an identifier. *)
Lemma empty_doc_id_falls_back_to_basename :
  attempts (calls (history (snd
    (insert_into_index steady notes_path (Some "") ready)))) =
    [ {| id_ := "notes.txt"; text := text notes_part |} ] /\
  id_ notes_part = "auto-1".
Proof. split; reflexivity. Qed.

(* ===================================================================== *)
(** ** [get_documents_list] *)
(* ===================================================================== *)

Lemma get_documents_list_dict C w d :
  stored_docs w = ADict d ->
  get_documents_list C w =
    (Ok (PyDict.items d), record (Logged (LReturning (List.length d))) w).
Proof.
  intro Hs. unfold get_documents_list, bind, read. rewrite Hs. cbn.
  rewrite Hs. reflexivity.
Qed.

(** A store that is not a dict is replaced before the listing is built:
    by the pickled dict if the file holds one, by [{}] otherwise. *)
Lemma get_documents_list_reload C w repr :
  stored_docs w = NotADict repr ->
  exists d w',
    get_documents_list C w = (Ok (PyDict.items d), w') /\
    stored_docs w' = ADict d /\
    d = match pkl_file w with
        | Some (Pickled (ADict d0)) => d0
        | _ => []
        end.
Proof.
  intro Hs.
  unfold get_documents_list, reload_stored_docs, bind, read, try_except,
    os_path_exists, pickle_load, log, update, ret.
  rewrite Hs. cbn.
  destruct (pkl_file w) as [[[d0|r0]|e]|] eqn:Hp; cbn; rewrite ?Hp; cbn;
    eexists; eexists; (split; [reflexivity|]); split; reflexivity.
Qed.

(** [get_documents_list] never raises. *)
Lemma get_documents_list_returns C w :
  exists l w', get_documents_list C w = (Ok l, w').
Proof.
  destruct (stored_docs w) as [d|repr] eqn:Hs.
  - rewrite (@get_documents_list_dict C w d Hs). eauto.
  - destruct (@get_documents_list_reload C w repr Hs) as (d & w' & H & _).
    eauto.
Qed.

(* ===================================================================== *)
(** ** [insert_into_index]: what it stores and when it persists *)
(* ===================================================================== *)

Lemma is_dict_inv o : isinstance_dict o = true -> exists d, o = ADict d.
Proof. destruct o as [d|r]; [eauto | discriminate]. Qed.

(** Two descriptions of the same run speak of the same events. *)
Lemma same_run (A : Type) (m : M A) w r1 w1 r2 w2 evs1 evs2 :
  m w = (r1, w1) -> m w = (r2, w2) ->
  history w1 = history w ++ evs1 -> history w2 = history w ++ evs2 ->
  w1 = w2 /\ evs1 = evs2.
Proof.
  intros H1 H2 Hh1 Hh2. rewrite H1 in H2. injection H2 as _ <-.
  split; [reflexivity|]. rewrite Hh1 in Hh2. now apply app_inv_head in Hh2.
Qed.

Lemma fold_put_preview_last ds p d :
  PyDict.get (id_ p) (fold_left put_preview (ds ++ [p]) d) =
    Some (preview (text p)).
Proof.
  rewrite fold_left_app. simpl. unfold put_preview at 1. apply get_set_same.
Qed.

(** C4 (as the code has it): when an insert under the identifier [d1]
    into a dict store indexed at least one part, and [p] is the last part
    it indexed, the listing that follows has an entry with id [d1], and
    its text is the preview of that part's text as the reader returned
    it: the text itself when it has at most 200 characters, and else its
    first 200 characters, cut behind the 200th, followed by ["..."]. *)
Theorem insert_then_list :
  forall C w doc_file_path d1 ds p,
    d1 <> "" ->
    isinstance_dict (stored_docs w) = true ->
    let w1 := snd (insert_into_index C doc_file_path (Some d1) w) in
    inserted_by (calls (events_since w w1)) = ds ++ [p] ->
    exists docs part l pv,
      In (CLoadData doc_file_path (Ok docs)) (calls (events_since w w1)) /\
      In part docs /\ text p = text part /\
      fst (get_documents_list C w1) = Ok l /\
      PyDict.get d1 l = Some pv /\ In (d1, pv) l /\
      (PyStr.len (text part) <= 200 -> pv = text part) /\
      (200 < PyStr.len (text part) ->
       exists first rest,
         text part = (first ++ rest)%string /\
         PyStr.len first = 200 /\ PyStr.begins_character rest = true /\
         pv = (first ++ "...")%string).
Proof.
  intros C w doc_file_path d1 ds p Hd1 Hdict.
  destruct (is_dict_inv _ Hdict) as (d & Hs).
  destruct (insert_into_index_dict C doc_file_path (Some d1) w d Hs)
    as (evs & w' & Hrun & Hh & Hsd & _).
  destruct (insert_into_index_any C doc_file_path (Some d1) w)
    as (evs0 & w0 & Hrun0 & Hh0 & Hfrom & _).
  destruct (same_run _ _ _ _ _ _ _ _ _ Hrun Hrun0 Hh Hh0) as (<- & <-).
  along Hrun Hh.
  intro Hins.
  assert (Hp : In (CInsertDocument p None) (calls evs)).
  { apply inserted_by_In. rewrite Hins. apply in_app_iff. right. now left. }
  destruct (Hfrom _ _ Hp) as (docs & part & Hload & Hpart & Htag).
  assert (Hid : id_ p = d1).
  { rewrite Htag. unfold tag, with_id. cbn [id_].
    now apply effective_doc_id_given. }
  assert (Htext : text p = text part) by (rewrite Htag; reflexivity).
  rewrite Hins in Hsd.
  rewrite (@get_documents_list_dict C w' _ Hsd). cbn [fst].
  assert (Hget : PyDict.get d1 (fold_left put_preview (ds ++ [p]) d) =
                 Some (preview (text part))).
  { rewrite <- Hid, <- Htext. apply fold_put_preview_last. }
  exists docs, part, (PyDict.items (fold_left put_preview (ds ++ [p]) d)),
    (preview (text part)).
  split; [exact Hload|]. split; [exact Hpart|]. split; [exact Htext|].
  split; [reflexivity|]. split; [exact Hget|].
  split; [apply get_Some_In; exact Hget|].
  split.
  - intro Hshort. apply preview_short. exact Hshort.
  - intro Hlong.
    destruct (prefix_split 200 (text part) Hlong) as (rest & Hsplit & Hb).
    exists (PyStr.prefix 200 (text part)), rest.
    split; [exact Hsplit|].
    split; [apply prefix_length; lia|].
    split; [exact Hb|].
    apply preview_long. exact Hlong.
Qed.

Lemma insert_then_list_witness :
  exists l,
    fst (get_documents_list accents
           (snd (insert_into_index accents notes_path (Some "d1") ready))) = Ok l /\
    PyStr.len (text accents_part) = 201 /\
    In ("d1", (PyStr.times 200 e_acute ++ "...")%string) l.
Proof.
  destruct (@insert_then_list accents ready notes_path "d1" []
              (with_id accents_part "d1"))
    as (docs & part & l & pv & Hload & Hpart & _ & Hlist & _ & Hin & _ & Hlong).
  - discriminate.
  - reflexivity.
  - vm_compute. reflexivity.
  - assert (Hdocs : docs = [accents_part]).
    { vm_compute in Hload.
      destruct Hload as [H|[H|[H|[H|[]]]]]; try discriminate H.
      injection H as <-. reflexivity. }
    subst docs. destruct Hpart as [<-|[]].
    destruct Hlong as (first & rest & Hsplit & Hlen & Hb & ->);
      [vm_compute; lia|].
    assert (Hfirst : PyStr.times 200 e_acute = first).
    { apply (split_unique (PyStr.times 200 e_acute) e_acute first rest).
      - rewrite <- Hsplit. vm_compute. reflexivity.
      - rewrite Hlen. vm_compute. reflexivity.
      - reflexivity.
      - exact Hb. }
    rewrite Hfirst.
    exists l. split; [exact Hlist|]. split; [vm_compute; reflexivity | exact Hin].
Defined.

(** C4 fails: a file that the reader returns as two parts, the first of
    300 characters, is listed under its identifier with the text of the
    second part, not with the first 200 characters of its content and
    three dots. *)
Lemma last_part_is_listed :
  let w1 := snd (insert_into_index paged notes_path (Some "d1") ready) in
  In (CLoadData notes_path (Ok two_parts)) (calls (events_since ready w1)) /\
  map text (inserted_by (calls (events_since ready w1))) =
    [PyStr.times 300 "A"; "end"] /\
  PyStr.len (PyStr.times 300 "A") = 300 /\
  fst (get_documents_list paged w1) = Ok [("d1", "end")].
Proof.
  vm_compute. repeat split; auto.
Qed.

Lemma filter_singleton (f : Call -> bool) cs c x :
  filter f cs = [c] -> In x cs -> f x = true -> x = c.
Proof.
  intros Hf Hin Hx.
  assert (In x (filter f cs)) as H by (apply filter_In; auto).
  rewrite Hf in H. destruct H as [H|[]]. now symmetry.
Qed.




(** C7 (as the code has it): on an initialized index, an insert of a
    path that does not exist returns [None] like every other insert, logs
    one error record, and leaves [index], [stored_docs] and both durable
    artifacts as they were. *)
Theorem missing_file_insert :
  forall C w ix doc_file_path doc_id,
    index w = Some ix ->
    fst (os_path_exists C doc_file_path w) = Ok false ->
    let run := insert_into_index C doc_file_path doc_id w in
    fst run = Ok tt /\
    events_since w (snd run) = [Logged (LFileNotFound doc_file_path)] /\
    level (LFileNotFound doc_file_path) = ERROR /\
    index (snd run) = index w /\ stored_docs (snd run) = stored_docs w /\
    saved_index (snd run) = saved_index w /\ pkl_file (snd run) = pkl_file w.
Proof.
  intros C w ix doc_file_path doc_id Hix Hex.
  assert (Hrun : insert_into_index C doc_file_path doc_id w =
                 (Ok tt, record (Logged (LFileNotFound doc_file_path)) w)).
  { unfold insert_into_index, bind, read. rewrite Hix.
    destruct (os_path_exists C doc_file_path w) as [r0 w0] eqn:E.
    unfold os_path_exists, read in E. injection E as <- <-.
    cbn [fst] in Hex. injection Hex as ->. reflexivity. }
  cbn zeta. rewrite Hrun. cbn [fst snd].
  rewrite (@events_since_app _ _ [Logged (LFileNotFound doc_file_path)]
             (record_history _ w)).
  repeat split.
Qed.

Lemma missing_file_insert_witness :
  fst (insert_into_index steady "/nonexistent/path" None ready) = Ok tt /\
  events_since ready (snd (insert_into_index steady "/nonexistent/path" None ready))
    = [Logged (LFileNotFound "/nonexistent/path")].
Proof.
  destruct (@missing_file_insert steady ready empty_index "/nonexistent/path"
              None eq_refl eq_refl) as (H1 & H2 & _).
  split; [exact H1 | exact H2].
Defined.

(** C7 fails: for a path that does not exist the caller gets back what
    the caller of an insert that indexed a document gets. *)
Lemma missing_file_returns_like_success :
  fst (os_path_exists steady "/nonexistent/path" ready) = Ok false /\
  fst (insert_into_index steady "/nonexistent/path" None ready) =
    fst (insert_into_index steady notes_path None ready) /\
  fst (insert_into_index steady "/nonexistent/path" None ready) = Ok tt /\
  entry "auto-1"
    (stored_docs (snd (insert_into_index steady notes_path None ready))) =
    Some "Vector indexes map text to embeddings.".
Proof. repeat split; reflexivity. Qed.

(** C8: the parts handed to the index are the parts the reader
    returned, in order and retagged, whichever of these insertions
    raise, and the call returns [None].  A part is left out only when the
    last call of the run is an insertion that returned, never behind one
    that raised; with [stored_docs] a dict, as it is declared, none is
    left out. *)
Theorem failed_parts_are_skipped :
  forall C w doc_file_path doc_id docs,
    let run := insert_into_index C doc_file_path doc_id w in
    let cs := calls (events_since w (snd run)) in
    In (CLoadData doc_file_path (Ok docs)) cs ->
    fst run = Ok tt /\
    exists done rest,
      docs = done ++ rest /\
      attempts cs = map (tag doc_file_path doc_id) done /\
      (rest <> [] -> exists pre d, cs = pre ++ [CInsertDocument d None]) /\
      (isinstance_dict (stored_docs w) = true -> rest = []).
Proof.
  intros C w doc_file_path doc_id docs.
  destruct (stored_docs w) as [d|repr] eqn:Hs.
  2:{ destruct (insert_into_index_run C doc_file_path doc_id w)
        as (evs & w' & Hrun & Hh & _ & Hparts & _).
      along Hrun Hh. intro Hin. split; [reflexivity|].
      destruct (Hparts docs Hin) as (done & rest & Hsplit & Ha & Hlast).
      exists done, rest. repeat split; auto. discriminate. }
  destruct (insert_into_index_dict C doc_file_path doc_id w d Hs)
    as (evs & w' & Hrun & Hh & _ & Hshape).
  along Hrun Hh.
  intro Hin. split; [reflexivity|].
  exists docs, []. rewrite app_nil_r.
  split; [reflexivity|].
  split; [|split; [intro H; contradiction | reflexivity]].
  destruct Hshape as [(Hcs & _)
                     |[(e & Hcs & _)
                      |[(docs0 & ins & Hcs & Hloop & _)
                       |(docs0 & ins & ix & ep & o & eq & Hcs & Hloop & _)]]];
    rewrite Hcs in *.
  - destruct Hin.
  - destruct Hin as [H|[]]. discriminate H.
  - destruct (attempts_of_loop _ _ _ _ Hloop) as (Ha & _ & _ & Hl).
    destruct Hin as [H|H]; [|destruct (Hl _ _ H)].
    injection H as ->. exact Ha.
  - destruct (attempts_of_loop _ _ _ _ Hloop) as (Ha & _ & _ & Hl).
    cbn. rewrite attempts_app, Ha. cbn. rewrite app_nil_r.
    destruct Hin as [H|H].
    + injection H as ->. reflexivity.
    + apply in_app_iff in H. destruct H as [H|[H|[H|[]]]];
        [destruct (Hl _ _ H) | discriminate H | discriminate H].
Qed.

Lemma failed_parts_are_skipped_witness :
  fst (insert_into_index picky notes_path None ready) = Ok tt /\
  attempts (calls (events_since ready
                     (snd (insert_into_index picky notes_path None ready)))) =
    map (tag notes_path None) three_pages.
Proof.
  destruct (@failed_parts_are_skipped picky ready notes_path None three_pages)
    as (Hret & done & rest & Hsplit & Ha & _ & Hall).
  - left. reflexivity.
  - split; [exact Hret|].
    rewrite (Hall eq_refl), app_nil_r in Hsplit. rewrite Hsplit. exact Ha.
Defined.

(** C10: one insert leaves the preview stored under an identifier as it
    was, an absent one absent, unless the index accepted a part tagged
    with that identifier; and a dict store ends as the store before with
    the previews of the accepted parts put in, in order. *)
Theorem preview_only_after_insertion :
  forall C w doc_file_path doc_id k,
    let w' := snd (insert_into_index C doc_file_path doc_id w) in
    let cs := calls (events_since w w') in
    (forall p, In p (inserted_by cs) -> id_ p <> k) ->
    entry k (stored_docs w') = entry k (stored_docs w) /\
    (forall d, stored_docs w = ADict d ->
       stored_docs w' = ADict (fold_left put_preview (inserted_by cs) d)).
Proof.
  intros C w doc_file_path doc_id k.
  destruct (insert_into_index_any C doc_file_path doc_id w)
    as (evs & w' & Hrun & Hh & _ & Hentry).
  along Hrun Hh.
  intro Hk. split; [now apply Hentry|].
  intros d Hs.
  destruct (insert_into_index_dict C doc_file_path doc_id w d Hs)
    as (evs1 & w1 & Hrun1 & Hh1 & Hsd & _).
  destruct (same_run _ _ _ _ _ _ _ _ _ Hrun Hrun1 Hh Hh1) as (<- & <-).
  exact Hsd.
Qed.

Lemma preview_only_after_insertion_witness :
  entry "p2" (stored_docs (snd (insert_into_index picky notes_path None ready)))
    = entry "p2" (stored_docs ready) /\
  stored_docs (snd (insert_into_index picky notes_path None ready)) =
    ADict [("p1", "first page"); ("p3", "third page")].
Proof.
  destruct (@preview_only_after_insertion picky ready notes_path None "p2")
    as (Hentry & Hstore).
  - vm_compute. intros p [<-|[<-|[]]]; discriminate.
  - split; [exact Hentry|]. rewrite (Hstore [] eq_refl). reflexivity.
Defined.

(* ===================================================================== *)
(** ** [initialize_index] *)
(* ===================================================================== *)

(** A start without a snapshot that loads, in full: the index is
    rebound to a fresh one, its persist is the one write, and the run
    goes on to the preview file only when that persist returned. *)
Lemma initialize_index_fresh C w :
  (forall ix, saved_index w <> Some (Loadable ix)) ->
  exists evs r w' ep,
    initialize_index C w = (r, w') /\
    history w' = history w ++ evs /\
    index w' = Some empty_index /\ pkl_file w' = pkl_file w /\
    persists (calls evs) = [CPersistIndex empty_index ep] /\
    ((forall h, persist C h empty_index = Written) -> ep = None) /\
    match ep with
    | None =>
        r = Ok tt /\ saved_index w' = Some (Loadable empty_index) /\
        stored_docs w' = store_at_start (pkl_file w)
    | Some e =>
        r = Raised e /\ stored_docs w' = stored_docs w /\
        (forall err, ~ In (CPickleLoad err) (calls evs))
    end.
Proof.
  intro Hsi.
  unfold initialize_index, new_index_and_persist, bind, try_except,
    os_path_exists, read, log, update, load_index_from_storage,
    storage_context_persist, pickle_load.
  cbn.
  destruct (saved_index w) as [[ix|e0]|] eqn:Hs; cbn; rewrite ?Hs; cbn;
    [exfalso; exact (Hsi ix eq_refl) | |].
  all: match goal with
       | |- context [persist ?c ?h ?i] =>
           destruct (persist c h i) as [|e1 r1] eqn:Hw
       end; cbn.
  all: try (destruct (pkl_file w) as [[o|e']|] eqn:Hp; cbn; rewrite ?Hp; cbn).
  all: eexists; eexists; eexists; eexists;
    (split; [reflexivity|]); cbn;
    (split; [rewrite <- ?app_assoc; reflexivity|]);
    (split; [reflexivity|]);
    (split; [rewrite ?Hp; reflexivity|]);
    (split; [reflexivity|]).
  all: split; [intro Hall; rewrite Hall in Hw; first [reflexivity | discriminate Hw]|].
  all: cbn; rewrite ?Hp; repeat split; auto.
  all: intros err H; cbn in H; intuition discriminate.
Qed.

(** C9 (as the code has it): from storage whose index snapshot is absent
    or cannot be loaded, [initialize_index] rebinds the index to a fresh
    empty one and starts one write, the persist of that index; it never
    propagates an error of loading the snapshot or the preview file.
    When the persist is carried out the call returns [None] with the
    snapshot holding the empty index; a preview file that is absent or
    cannot be unpickled then gives an empty dict as the store, and
    whenever the file does not hold a dict the listing that follows is
    empty.  When the persist raises, [initialize_index] raises that
    error, the preview file unread and the store as it was. *)
Theorem initialize_from_bad_storage :
  forall C w,
    (forall ix, saved_index w <> Some (Loadable ix)) ->
    let run := initialize_index C w in
    let w' := snd run in
    let cs := calls (events_since w w') in
    index w' = Some empty_index /\
    pkl_file w' = pkl_file w /\
    (exists ep,
       persists cs = [CPersistIndex empty_index ep] /\
       match ep with
       | None =>
           fst run = Ok tt /\
           saved_index w' = Some (Loadable empty_index) /\
           (pkl_file w = None \/ (exists e, pkl_file w = Some (Unpicklable e)) ->
            stored_docs w' = ADict []) /\
           ((forall d, pkl_file w <> Some (Pickled (ADict d))) ->
            fst (get_documents_list C w') = Ok [])
       | Some e =>
           fst run = Raised e /\ stored_docs w' = stored_docs w /\
           (forall err, ~ In (CPickleLoad err) cs)
       end) /\
    ((forall h, persist C h empty_index = Written) ->
     fst run = Ok tt /\ saved_index w' = Some (Loadable empty_index)).
Proof.
  intros C w Hsi.
  destruct (initialize_index_fresh C w Hsi)
    as (evs & r & w' & ep & Hrun & Hh & Hix & Hpk & Hp & Horacle & Hcase).
  along Hrun Hh.
  split; [exact Hix|]. split; [exact Hpk|]. split.
  - exists ep. split; [exact Hp|].
    destruct ep as [e|]; [exact Hcase|].
    destruct Hcase as (-> & Hsaved & Hstore).
    split; [reflexivity|]. split; [exact Hsaved|]. split.
    + intros [H|(e & H)]; rewrite Hstore, H; reflexivity.
    + intro Hnd. unfold store_at_start in Hstore.
      destruct (pkl_file w) as [[[d0|repr]|e]|] eqn:E.
      * exfalso. exact (Hnd d0 eq_refl).
      * destruct (get_documents_list_reload C w' repr Hstore)
          as (d & w2 & Hlist & _ & Hd).
        rewrite Hlist, Hd, Hpk. reflexivity.
      * rewrite (get_documents_list_dict C w' [] Hstore). reflexivity.
      * rewrite (get_documents_list_dict C w' [] Hstore). reflexivity.
  - intro Hall. rewrite (Horacle Hall) in Hcase.
    destruct Hcase as (-> & Hsaved & _). auto.
Qed.

Lemma initialize_from_bad_storage_witness :
  let run := initialize_index steady
               (module_loaded (Some (Unloadable "unsupported index version"))
                              (Some (Unpicklable "invalid load key"))) in
  fst run = Ok tt /\
  index (snd run) = Some empty_index /\
  saved_index (snd run) = Some (Loadable empty_index) /\
  stored_docs (snd run) = ADict [] /\
  fst (get_documents_list steady (snd run)) = Ok [].
Proof.
  destruct (@initialize_from_bad_storage steady
              (module_loaded (Some (Unloadable "unsupported index version"))
                             (Some (Unpicklable "invalid load key"))))
    as (Hix & _ & (ep & Hp & Hcase) & _).
  - intros ix H. discriminate H.
  - vm_compute in Hp. injection Hp as <-.
    destruct Hcase as (Hr & Hsaved & Hstore & Hlist).
    split; [exact Hr|]. split; [exact Hix|]. split; [exact Hsaved|]. split.
    + apply Hstore. right. eexists. reflexivity.
    + apply Hlist. intros d H. discriminate H.
Defined.

(** C9 fails: with no snapshot and storage that refuses the write,
    [initialize_index] raises; and with a preview file that holds a
    pickled list it returns with that list, not an empty dict, as the
    store. *)
Lemma initialize_raises_or_keeps_a_list :
  fst (initialize_index read_only (module_loaded None None)) =
    Raised "Read-only file system" /\
  (let run := initialize_index steady
                (module_loaded None (Some (Pickled (NotADict "[1, 2]")))) in
   fst run = Ok tt /\ stored_docs (snd run) = NotADict "[1, 2]").
Proof. repeat split; reflexivity. Qed.

(* ===================================================================== *)
(** ** When the preview file holds something else than a dict *)
(* ===================================================================== *)

(** [initialize_index] binds [stored_docs] to whatever unpickles, without
    looking at its type. *)
Lemma initialize_index_keeps_unpickled C w o :
  pkl_file w = Some (Pickled o) ->
  fst (initialize_index C w) = Ok tt ->
  stored_docs (snd (initialize_index C w)) = o.
Proof.
  intro Hpk.
  unfold initialize_index, new_index_and_persist, bind, try_except,
    os_path_exists, read, log, update, load_index_from_storage,
    storage_context_persist, pickle_load.
  cbn.
  destruct (saved_index w) as [[ix|e]|] eqn:Hsi; cbn; rewrite ?Hsi; cbn;
    try match goal with
        | |- context [persist C ?h ?i] => destruct (persist C h i) as [|e1 r1]
        end;
    cbn; rewrite ?Hpk; cbn; rewrite ?Hpk; cbn;
    try reflexivity; discriminate.
Qed.

(** The listing after such a start is empty all the same, and resets the
    store. *)
Lemma listing_after_type_mismatch C w repr :
  stored_docs w = NotADict repr ->
  pkl_file w = Some (Pickled (NotADict repr)) ->
  fst (get_documents_list C w) = Ok [] /\
  stored_docs (snd (get_documents_list C w)) = ADict [].
Proof.
  intros Hs Hpk.
  destruct (get_documents_list_reload C w repr Hs) as (d & w' & Hrun & Hs' & Hd).
  rewrite Hpk in Hd. subst d. rewrite Hrun. split; [reflexivity | exact Hs'].
Qed.

(** An insert into that world: the index takes the part, the assignment
    into the store raises, the outer handler logs it, nothing is written. *)
Example insert_with_a_list_as_store :
  let run := insert_into_index steady notes_path None ready_with_a_list in
  fst run = Ok tt /\
  index (snd run) = Some [notes_part] /\
  calls (history (snd run)) =
    [CLoadData notes_path (Ok [notes_part]); CInsertDocument notes_part None] /\
  logs (history (snd run)) =
    [LInserting notes_path "Auto"; LLoaded 1; LInserted "auto-1";
     LProcessingError notes_path
       "list indices must be integers or slices, not str"] /\
  saved_index (snd run) = saved_index ready_with_a_list /\
  pkl_file (snd run) = pkl_file ready_with_a_list.
Proof. repeat split; reflexivity. Qed.

(** A [collections.UserDict] in its place takes the item: the insert
    goes on to both writes, and what is pickled is not a dict either. *)
Example insert_with_a_userdict_as_store :
  let run := insert_into_index lenient notes_path None ready_with_a_userdict in
  fst run = Ok tt /\
  calls (history (snd run)) =
    [CLoadData notes_path (Ok [notes_part]); CInsertDocument notes_part None;
     CPersistIndex [notes_part] None;
     CPickleDump (stored_docs (snd run)) None] /\
  isinstance_dict (stored_docs (snd run)) = false /\
  saved_index (snd run) = Some (Loadable [notes_part]) /\
  pkl_file (snd run) = Some (Pickled (stored_docs (snd run))) /\
  fst (get_documents_list lenient (snd run)) = Ok [].
Proof. repeat split; reflexivity. Qed.

(* ===================================================================== *)
(** ** The store stays a dict *)
(* ===================================================================== *)

(** [insert_into_index] assigns into [stored_docs], never rebinds it. *)
Lemma insert_into_index_keeps_dict C w doc_file_path doc_id :
  isinstance_dict (stored_docs w) = true ->
  isinstance_dict (stored_docs (snd (insert_into_index C doc_file_path doc_id w)))
    = true.
Proof.
  intro Hdict. destruct (is_dict_inv _ Hdict) as (d & Hs).
  destruct (insert_into_index_dict C doc_file_path doc_id w d Hs)
    as (evs & w' & Hrun & _ & Hsd & _).
  rewrite Hrun. cbn [snd]. rewrite Hsd. reflexivity.
Qed.

(** After [get_documents_list] it is one in any case. *)
Lemma get_documents_list_gives_dict C w :
  isinstance_dict (stored_docs (snd (get_documents_list C w))) = true.
Proof.
  destruct (stored_docs w) as [d|repr] eqn:Hs.
  - rewrite (get_documents_list_dict C w d Hs). cbn. rewrite Hs. reflexivity.
  - destruct (get_documents_list_reload C w repr Hs) as (d & w' & Hrun & Hs' & _).
    rewrite Hrun. cbn [snd]. rewrite Hs'. reflexivity.
Qed.

(** After [initialize_index] it is one unless the file unpickles to
    something else. *)
Lemma initialize_index_gives_dict C w :
  isinstance_dict (stored_docs w) = true ->
  (forall repr, pkl_file w <> Some (Pickled (NotADict repr))) ->
  isinstance_dict (stored_docs (snd (initialize_index C w))) = true.
Proof.
  intros Hdict Hpk.
  unfold initialize_index, new_index_and_persist, bind, try_except,
    os_path_exists, read, log, update, load_index_from_storage,
    storage_context_persist, pickle_load.
  cbn.
  destruct (saved_index w) as [[ix|e]|] eqn:Hsi; cbn; rewrite ?Hsi; cbn;
    try match goal with
        | |- context [persist C ?h ?i] => destruct (persist C h i) as [|e1 r1]
        end;
    cbn; try exact Hdict;
    (destruct (pkl_file w) as [[[d|repr]|e']|] eqn:Hp; cbn; rewrite ?Hp; cbn;
     try reflexivity; exfalso; exact (Hpk repr eq_refl)).
Qed.

(** A first start on empty storage, one insert with an explicit
    identifier, and the listing. *)
Example first_start_insert_list :
  let w1 := snd (initialize_index steady (module_loaded None None)) in
  let w2 := snd (insert_into_index steady notes_path (Some "d1") w1) in
  fst (get_documents_list steady w2) =
    Ok [("d1", "Vector indexes map text to embeddings.")] /\
  saved_index w2 = Some (Loadable [with_id notes_part "d1"]) /\
  pkl_file w2 =
    Some (Pickled (ADict [("d1", "Vector indexes map text to embeddings.")])).
Proof. repeat split; reflexivity. Qed.

(** [os.path.basename] on a few paths. *)
Example basename_examples :
  PyStr.basename "/srv/documents/notes.txt" = "notes.txt" /\
  PyStr.basename "notes.txt" = "notes.txt" /\
  PyStr.basename "/srv/documents/" = "" /\
  PyStr.basename "a//b" = "b".
Proof. repeat split; reflexivity. Qed.

(** A 201-character text is cut to 200 characters and three dots; a
    character of two bytes counts once. *)
Example preview_of_201 :
  let t := String "x" (String.concat "" (List.repeat "ab" 100)) in
  PyStr.len t = 201 /\
  preview t = (PyStr.prefix 200 t ++ "...")%string /\
  PyStr.len (preview t) = 203 /\
  preview (PyStr.prefix 200 t) = PyStr.prefix 200 t /\
  PyStr.len e_acute = 1 /\ String.length e_acute = 2 /\
  preview (PyStr.times 201 e_acute) = (PyStr.times 200 e_acute ++ "...")%string /\
  preview (PyStr.times 200 e_acute) = PyStr.times 200 e_acute /\
  String.length (preview (PyStr.times 201 e_acute)) = 403.
Proof. repeat split; reflexivity. Qed.

(* ===================================================================== *)
(** ** More on [query_index] and [get_documents_list] *)
(* ===================================================================== *)

(** X2: [query_index] never raises and has no effect but its log
    records and at most one call of the engine: [index], [stored_docs]
    and both durable artifacts are as before. *)
Theorem query_index_changes_nothing :
  forall C w query_text,
    let run := query_index C query_text w in
    (exists r, fst run = Ok r) /\
    index (snd run) = index w /\ stored_docs (snd run) = stored_docs w /\
    saved_index (snd run) = saved_index w /\ pkl_file (snd run) = pkl_file w /\
    List.length (calls (events_since w (snd run))) <= 1 /\
    attempts (calls (events_since w (snd run))) = [] /\
    persists (calls (events_since w (snd run))) = [] /\
    dumps (calls (events_since w (snd run))) = [].
Proof.
  intros C w query_text.
  destruct (index w) as [ix|] eqn:Hix.
  - destruct (@query_index_ready C w ix query_text Hix)
      as (outcome & w' & Hrun & _ & Hh & Hi & Hs & Hsi & Hpk).
    along Hrun Hh. rewrite <- Hix.
    repeat split; eauto.
  - assert (Hrun : query_index C query_text w =
                   (Ok (RStr "Error: Index not ready."),
                    record (Logged LQueryNotReady) w)).
    { unfold query_index, bind, read. rewrite Hix. reflexivity. }
    along Hrun (record_history (Logged LQueryNotReady) w).
    repeat split; eauto.
Qed.

(** What one [get_documents_list] does, in full. *)
Lemma get_documents_list_run C w :
  exists d w',
    get_documents_list C w = (Ok (PyDict.items d), w') /\
    stored_docs w' = ADict d /\
    index w' = index w /\
    saved_index w' = saved_index w /\ pkl_file w' = pkl_file w /\
    d = match stored_docs w with
        | ADict d0 => d0
        | NotADict _ =>
            match pkl_file w with
            | Some (Pickled (ADict d0)) => d0
            | _ => []
            end
        end.
Proof.
  destruct (stored_docs w) as [d|repr] eqn:Hs.
  - exists d. eexists. rewrite (get_documents_list_dict C w d Hs).
    split; [reflexivity|]. cbn. auto.
  - unfold get_documents_list, reload_stored_docs, bind, read, try_except,
      os_path_exists, pickle_load, log, update, ret.
    rewrite Hs. cbn.
    destruct (pkl_file w) as [[[d0|r0]|e]|] eqn:Hp; cbn; rewrite ?Hp; cbn;
      eexists; eexists; (split; [reflexivity|]); cbn; auto.
Qed.

(** X3: [get_documents_list] never raises and never writes: it returns
    the items of the store it leaves behind, which is a dict, and
    [index] and both durable artifacts are as before. *)
Theorem get_documents_list_never_raises :
  forall C w,
    let run := get_documents_list C w in
    exists l,
      fst run = Ok l /\ stored_docs (snd run) = ADict l /\
      index (snd run) = index w /\
      saved_index (snd run) = saved_index w /\
      pkl_file (snd run) = pkl_file w.
Proof.
  intros C w.
  destruct (get_documents_list_run C w) as (d & w' & Hrun & Hs & Hi & Hsi & Hpk & _).
  cbn zeta. rewrite Hrun. exists d. auto.
Qed.

(** X4: a second [get_documents_list] returns what the first returned
    and does not go back to the preview file. *)
Theorem get_documents_list_twice :
  forall C w,
    let w1 := snd (get_documents_list C w) in
    fst (get_documents_list C w1) = fst (get_documents_list C w) /\
    stored_docs (snd (get_documents_list C w1)) = stored_docs w1 /\
    calls (events_since w1 (snd (get_documents_list C w1))) = [].
Proof.
  intros C w.
  destruct (get_documents_list_run C w) as (d & w' & Hrun & Hs & _).
  cbn zeta. rewrite Hrun. cbn [fst snd].
  rewrite (get_documents_list_dict C w' d Hs). cbn [fst snd].
  rewrite (@events_since_app _ _ _ (record_history _ w')).
  repeat split.
Qed.

(** X5: when [stored_docs] is not a dict, [get_documents_list] returns
    the items of the dict pickled in the preview file, and the empty
    list when the file is absent, cannot be unpickled or holds something
    else. *)
Theorem get_documents_list_recovers :
  forall C w repr,
    stored_docs w = NotADict repr ->
    fst (get_documents_list C w) =
      Ok match pkl_file w with
         | Some (Pickled (ADict d0)) => PyDict.items d0
         | _ => []
         end.
Proof.
  intros C w repr Hs.
  destruct (get_documents_list_run C w) as (d & w' & Hrun & _ & _ & _ & _ & Hd).
  rewrite Hrun, Hs in *. cbn [fst]. subst d.
  destruct (pkl_file w) as [[[d0|r0]|e]|]; reflexivity.
Qed.

Lemma get_documents_list_recovers_witness :
  fst (get_documents_list steady
         {| index := Some empty_index; stored_docs := NotADict "[1, 2]";
            saved_index := None;
            pkl_file := Some (Pickled (ADict [("d1", "kept")]));
            history := [] |}) = Ok [("d1", "kept")].
Proof.
  exact (@get_documents_list_recovers steady
           {| index := Some empty_index; stored_docs := NotADict "[1, 2]";
              saved_index := None;
              pkl_file := Some (Pickled (ADict [("d1", "kept")]));
              history := [] |} "[1, 2]" eq_refl).
Defined.

(* ===================================================================== *)
(** ** More on [initialize_index] *)
(* ===================================================================== *)

Ltac unfold_initialize :=
  unfold initialize_index, new_index_and_persist, bind, try_except,
    os_path_exists, read, log, update, load_index_from_storage,
    storage_context_persist, pickle_load;
  cbn.

(** One [initialize_index], in full. *)
Lemma initialize_index_run C w :
  exists evs r w',
    initialize_index C w = (r, w') /\
    history w' = history w ++ evs /\
    pkl_file w' = pkl_file w /\ dumps (calls evs) = [] /\
    (forall ix, saved_index w = Some (Loadable ix) ->
       r = Ok tt /\ index w' = Some ix /\ saved_index w' = saved_index w /\
       persists (calls evs) = []) /\
    (r = Ok tt ->
       stored_docs w' = store_at_start (pkl_file w) /\
       exists ix, index w' = Some ix /\ saved_index w' = Some (Loadable ix)) /\
    (forall e, r = Raised e ->
       index w' = Some empty_index /\ stored_docs w' = stored_docs w /\
       In (CPersistIndex empty_index (Some e)) (calls evs) /\
       (forall r0, ~ In (CPickleLoad r0) (calls evs))) /\
    ((forall h, persist C h empty_index = Written) -> r = Ok tt) /\
    (forall e remains,
       (forall h, persist C h empty_index = WriteFailed e remains) ->
       (forall ix, saved_index w <> Some (Loadable ix)) ->
       r = Raised e /\ saved_index w' = remains).
Proof.
  unfold_initialize.
  destruct (saved_index w) as [[ix|e0]|] eqn:Hsi; cbn; rewrite ?Hsi; cbn;
    try match goal with
        | |- context [persist C ?h ?i] =>
            destruct (persist C h i) as [|e1 r1] eqn:Hw
        end;
    cbn;
    try (destruct (pkl_file w) as [[o|e']|] eqn:Hp; cbn; rewrite ?Hp; cbn);
    eexists; eexists; eexists; (split; [reflexivity|]); cbn;
    (split; [rewrite <- ?app_assoc; reflexivity|]);
    (split; [rewrite ?Hp; reflexivity|]); (split; [reflexivity|]).
  all: rewrite ?Hp, ?Hsi.
  all: repeat split; intros; try discriminate; try congruence; eauto.
  all: match goal with
       | H : forall h, persist ?c h empty_index = _ |- _ =>
           rewrite H in Hw; inversion Hw; subst; auto
       | H : forall ix, Some _ <> Some (Loadable ix) |- _ =>
           exfalso; eapply H; reflexivity
       | |- _ => idtac
       end.
  all: cbn;
    try match goal with H : Raised _ = Raised _ |- _ => injection H as <- end;
    intuition (try discriminate; auto).
Qed.

(** X6: when the snapshot loads, [initialize_index] returns normally
    with the index it holds, takes the store from the preview file ([{}]
    when the file is absent or cannot be unpickled), and writes
    nothing. *)
Theorem initialize_index_restores :
  forall C w ix,
    saved_index w = Some (Loadable ix) ->
    let run := initialize_index C w in
    fst run = Ok tt /\
    index (snd run) = Some ix /\
    stored_docs (snd run) =
      match pkl_file w with Some (Pickled o) => o | _ => ADict [] end /\
    saved_index (snd run) = saved_index w /\
    pkl_file (snd run) = pkl_file w /\
    persists (calls (events_since w (snd run))) = [] /\
    dumps (calls (events_since w (snd run))) = [].
Proof.
  intros C w ix Hsi.
  destruct (initialize_index_run C w)
    as (evs & r & w' & Hrun & Hh & Hpk & Hd & Hload & Hok & _).
  destruct (Hload ix Hsi) as (-> & Hi & Hs & Hp).
  destruct (Hok eq_refl) as (Hst & _).
  along Hrun Hh. auto 10.
Qed.

Lemma initialize_index_restores_witness :
  index (snd (initialize_index steady
                (module_loaded (Some (Loadable [notes_part]))
                               (Some (Pickled (ADict [("auto-1", "kept")]))))))
    = Some [notes_part] /\
  stored_docs (snd (initialize_index steady
                (module_loaded (Some (Loadable [notes_part]))
                               (Some (Pickled (ADict [("auto-1", "kept")]))))))
    = ADict [("auto-1", "kept")].
Proof.
  destruct (@initialize_index_restores steady
              (module_loaded (Some (Loadable [notes_part]))
                             (Some (Pickled (ADict [("auto-1", "kept")]))))
              [notes_part] eq_refl)
    as (_ & Hi & Hs & _).
  split; [exact Hi | exact Hs].
Defined.

(** X7: [initialize_index] is idempotent: run again after it returned
    normally, it returns normally, leaves [index], [stored_docs] and both
    durable artifacts as the first run left them, and writes nothing. *)
Theorem initialize_index_twice :
  forall C w,
    fst (initialize_index C w) = Ok tt ->
    let w1 := snd (initialize_index C w) in
    let run := initialize_index C w1 in
    fst run = Ok tt /\
    index (snd run) = index w1 /\ stored_docs (snd run) = stored_docs w1 /\
    saved_index (snd run) = saved_index w1 /\
    pkl_file (snd run) = pkl_file w1 /\
    persists (calls (events_since w1 (snd run))) = [].
Proof.
  intros C w Hfirst.
  destruct (initialize_index_run C w)
    as (evs & r & w1 & Hrun & Hh & Hpk & _ & _ & Hok & _).
  rewrite Hrun in Hfirst. cbn [fst] in Hfirst. subst r.
  destruct (Hok eq_refl) as (Hst & ix & Hi & Hsi).
  cbn zeta. rewrite Hrun. cbn [snd].
  destruct (initialize_index_run C w1)
    as (evs2 & r2 & w2 & Hrun2 & Hh2 & Hpk2 & _ & Hload2 & Hok2 & _).
  destruct (Hload2 ix Hsi) as (-> & Hi2 & Hsi2 & Hp2).
  destruct (Hok2 eq_refl) as (Hst2 & _).
  along Hrun2 Hh2.
  repeat split; auto; congruence.
Qed.

Lemma initialize_index_twice_witness :
  fst (initialize_index steady
         (snd (initialize_index steady (module_loaded None None)))) = Ok tt /\
  index (snd (initialize_index steady
         (snd (initialize_index steady (module_loaded None None))))) =
    Some empty_index.
Proof.
  destruct (@initialize_index_twice steady (module_loaded None None) eq_refl)
    as (Hr & Hi & _).
  split; [exact Hr | exact Hi].
Defined.

(** X8: when there is no snapshot that loads and the write of the fresh
    one raises, [initialize_index] raises that error: the write is in no
    [try].  [index] is then the fresh index, the preview file has not
    been read, and [stored_docs] is what it was. *)
Theorem initialize_index_propagates_persist_error :
  forall C w e remains,
    (forall ix, saved_index w <> Some (Loadable ix)) ->
    (forall h, persist C h empty_index = WriteFailed e remains) ->
    let run := initialize_index C w in
    fst run = Raised e /\
    index (snd run) = Some empty_index /\
    stored_docs (snd run) = stored_docs w /\
    saved_index (snd run) = remains /\
    (forall r0, ~ In (CPickleLoad r0) (calls (events_since w (snd run)))).
Proof.
  intros C w e remains Hsi Hw.
  destruct (initialize_index_run C w)
    as (evs & r & w' & Hrun & Hh & _ & _ & _ & _ & Hraised & _ & Hfail).
  destruct (Hfail e remains Hw Hsi) as (-> & Hrem).
  destruct (Hraised e eq_refl) as (Hi & Hs & _ & Hnl).
  along Hrun Hh. auto.
Qed.

(** X9: [initialize_index] never writes the preview file, whatever the
    storage holds and whether it returns or raises. *)
Theorem initialize_index_keeps_preview_file :
  forall C w,
    let run := initialize_index C w in
    pkl_file (snd run) = pkl_file w /\
    dumps (calls (events_since w (snd run))) = [].
Proof.
  intros C w.
  destruct (initialize_index_run C w) as (evs & r & w' & Hrun & Hh & Hpk & Hd & _).
  along Hrun Hh. auto.
Qed.

Lemma initialize_index_propagates_persist_error_witness :
  fst (initialize_index read_only (module_loaded None None)) =
    Raised "Read-only file system" /\
  index (snd (initialize_index read_only (module_loaded None None))) =
    Some empty_index.
Proof.
  destruct (@initialize_index_propagates_persist_error read_only
              (module_loaded None None) "Read-only file system" None)
    as (Hr & Hi & _).
  - intros ix H. discriminate H.
  - reflexivity.
  - split; [exact Hr | exact Hi].
Defined.

(* ===================================================================== *)
(** ** Insert, then restart *)
(* ===================================================================== *)

(** What the writes of one insert leave when they go through. *)
Lemma insert_into_index_writes C doc_file_path doc_id w :
  exists evs w',
    insert_into_index C doc_file_path doc_id w = (Ok tt, w') /\
    history w' = history w ++ evs /\
    (forall ix, In (CPersistIndex ix None) (calls evs) ->
       index w' = Some ix /\ saved_index w' = Some (Loadable ix)) /\
    (forall o, In (CPickleDump o None) (calls evs) ->
       stored_docs w' = o /\ pkl_file w' = Some (Pickled o)).
Proof.
  destruct (insert_into_index_run C doc_file_path doc_id w)
    as (evs & w' & Hrun & Hh & _ & _ & Hcase).
  exists evs, w'. split; [exact Hrun|]. split; [exact Hh|].
  destruct Hcase as [(ix & ep & eq & _ & Hix & Hp & Hd & Hwi & Hwp & _)
                    |(Hp & Hd & _)].
  - split.
    + intros ix0 H.
      assert (E : CPersistIndex ix0 None = CPersistIndex ix ep)
        by (apply (filter_singleton is_persist (calls evs)); auto).
      injection E as -> <-. auto.
    + intros o H.
      assert (E : CPickleDump o None = CPickleDump (stored_docs w') eq)
        by (apply (filter_singleton is_dump (calls evs)); auto).
      injection E as -> <-. auto.
  - split; intros x H.
    + assert (In (CPersistIndex x None) (persists (calls evs))) as Hin
        by (apply filter_In; split; [exact H | reflexivity]).
      rewrite Hp in Hin. destruct Hin.
    + assert (In (CPickleDump x None) (dumps (calls evs))) as Hin
        by (apply filter_In; split; [exact H | reflexivity]).
      rewrite Hd in Hin. destruct Hin.
Qed.

(** X10: when both writes of an insert went through, a new process
    started on the storage it left gets back, from [initialize_index],
    the index and the store the old process held, and lists the same
    documents; this for any collaborators of the new process. *)
Theorem restart_restores_insert :
  forall C C' w doc_file_path doc_id ix o,
    let w' := snd (insert_into_index C doc_file_path doc_id w) in
    In (CPersistIndex ix None) (calls (events_since w w')) ->
    In (CPickleDump o None) (calls (events_since w w')) ->
    let run := initialize_index C'
                 (module_loaded (saved_index w') (pkl_file w')) in
    fst run = Ok tt /\
    index (snd run) = index w' /\
    stored_docs (snd run) = stored_docs w' /\
    fst (get_documents_list C' (snd run)) = fst (get_documents_list C w').
Proof.
  intros C C' w doc_file_path doc_id ix o.
  destruct (insert_into_index_writes C doc_file_path doc_id w)
    as (evs & w' & Hrun & Hh & Hpw & Hdw).
  along Hrun Hh. intros Hp Hd.
  destruct (Hpw ix Hp) as (Hi & Hsi). destruct (Hdw o Hd) as (Hs & Hpk).
  destruct (initialize_index_run C' (module_loaded (saved_index w') (pkl_file w')))
    as (evs1 & r & w1 & Hrun1 & _ & Hpk1 & _ & Hload & Hok & _).
  cbn [saved_index pkl_file module_loaded] in Hload, Hok, Hpk1.
  destruct (Hload ix Hsi) as (-> & Hi1 & _).
  destruct (Hok eq_refl) as (Hs1 & _).
  rewrite Hpk in Hs1. cbn in Hs1.
  rewrite Hrun1. cbn [fst snd].
  split; [reflexivity|]. split; [congruence|]. split; [congruence|].
  destruct (get_documents_list_run C' w1) as (d1 & w2 & Hl1 & _ & _ & _ & _ & Hd1).
  destruct (get_documents_list_run C w') as (d2 & w3 & Hl2 & _ & _ & _ & _ & Hd2).
  rewrite Hl1, Hl2. cbn [fst].
  rewrite Hs1, Hpk1 in Hd1. rewrite Hs in Hd2. congruence.
Qed.

Lemma restart_restores_insert_witness :
  stored_docs
    (snd (initialize_index offline
            (module_loaded
               (saved_index (snd (insert_into_index picky notes_path None ready)))
               (pkl_file (snd (insert_into_index picky notes_path None ready))))))
    = ADict [("p1", "first page"); ("p3", "third page")].
Proof.
  destruct (@restart_restores_insert picky offline ready notes_path None
              [ {| id_ := "p1"; text := "first page" |};
                {| id_ := "p3"; text := "third page" |} ]
              (ADict [("p1", "first page"); ("p3", "third page")]))
    as (_ & _ & Hs & _).
  - vm_compute. right. right. right. right. left. reflexivity.
  - vm_compute. do 5 right. left. reflexivity.
  - rewrite Hs. reflexivity.
Defined.

(* ===================================================================== *)
(** ** What is raised is logged *)
(* ===================================================================== *)

Lemma logs_app a b : logs (a ++ b) = logs a ++ logs b.
Proof.
  induction a as [|[m|c] a IH]; simpl; [reflexivity | now rewrite IH | exact IH].
Qed.

Lemma errors_of_app a b : errors_of (a ++ b) = errors_of a ++ errors_of b.
Proof.
  induction a as [|c a IH]; [reflexivity|].
  destruct c as [[e|]|ix [e|]|[e|]|o [e|]|p [ds|e]|d [e|]|t [e|]]; simpl;
    now rewrite ?IH.
Qed.

Lemma error_texts_app a b : error_texts (a ++ b) = error_texts a ++ error_texts b.
Proof.
  induction a as [|m a IH]; [reflexivity|].
  destruct m; simpl; now rewrite ?IH.
Qed.

Lemma accepted_logs_app a b :
  accepted_logs (a ++ b) = accepted_logs a ++ accepted_logs b.
Proof.
  induction a as [|m a IH]; [reflexivity|].
  destruct m; simpl; now rewrite ?IH.
Qed.

Lemma well_logged_app a b : well_logged a -> well_logged b -> well_logged (a ++ b).
Proof.
  intros (Ha1 & Ha2) (Hb1 & Hb2). unfold well_logged.
  rewrite !logs_app, !calls_app, error_texts_app, errors_of_app,
    accepted_logs_app, inserted_by_app, map_app.
  now rewrite Ha1, Ha2, Hb1, Hb2.
Qed.

Section Logged.

Variable C : Collaborators.
Variable doc_file_path : string.
Variable doc_id : option string.

Lemma process_document_logged document ids w ix d :
  index w = Some ix -> stored_docs w = ADict d ->
  exists evs ids' w' ix' d',
    process_document C doc_file_path doc_id document ids w = (Ok ids', w') /\
    history w' = history w ++ evs /\ well_logged evs /\
    index w' = Some ix' /\ stored_docs w' = ADict d'.
Proof.
  intros Hix Hs.
  unfold process_document, bind, try_except, index_insert_document, log,
    update, ret, stored_docs_setitem, well_logged.
  destruct (negb (PyStr.truthy
              match doc_id with Some i => i | None => id_ document end)) eqn:Et.
  all: cbn [index record set_index]; rewrite Hix.
  all: match goal with
       | |- context [insert_document C ?h ?i ?x] =>
           destruct (insert_document C h i x) as [e|] eqn:Eo
       end.
  all: cbn [index record set_index stored_docs history]; rewrite ?Hs.
  all: do 5 eexists; (split; [reflexivity|]); cbn;
         (split; [rewrite <- ?app_assoc; reflexivity|]); cbn;
         repeat split; first [reflexivity | exact Hix | exact Hs].
Qed.

Lemma process_documents_logged documents : forall ids w ix d,
  index w = Some ix -> stored_docs w = ADict d ->
  exists evs ids' w' ix',
    process_documents C doc_file_path doc_id documents ids w = (Ok ids', w') /\
    history w' = history w ++ evs /\ well_logged evs /\
    index w' = Some ix'.
Proof.
  induction documents as [|document rest IH]; intros ids w ix d Hix Hs.
  - exists [], ids, w, ix. simpl. rewrite app_nil_r.
    repeat split; auto.
  - destruct (process_document_logged document ids w ix d Hix Hs)
      as (evs1 & ids1 & w1 & ix1 & d1 & Hrun & Hh & Hl & Hix1 & Hs1).
    destruct (IH ids1 w1 ix1 d1 Hix1 Hs1)
      as (evs2 & ids2 & w2 & ix2 & Hrun2 & Hh2 & Hl2 & Hix2).
    exists (evs1 ++ evs2), ids2, w2, ix2.
    simpl. unfold bind. rewrite Hrun, Hrun2.
    repeat split; auto.
    + rewrite Hh2, Hh. now rewrite app_assoc.
    + apply well_logged_app; [exact Hl | exact Hl2].
    + apply well_logged_app; [exact Hl | exact Hl2].
Qed.

Lemma persist_changes_logged ids w ix :
  index w = Some ix ->
  exists evs w',
    persist_changes C ids w = (Ok tt, w') /\
    history w' = history w ++ evs /\ well_logged evs.
Proof.
  intro Hix.
  unfold persist_changes, bind, try_except, log, update,
    storage_context_persist, pickle_dump_stored_docs, well_logged.
  cbn [index record]. rewrite Hix.
  match goal with
  | |- context [persist C ?h ?i] => destruct (persist C h i) as [|e1 r1]
  end.
  all: cbn [stored_docs record set_saved_index history].
  all: match goal with
       | |- context [pickle_dump C ?h ?o] =>
           destruct (pickle_dump C h o) as [|e2 r2]
       end.
  all: do 2 eexists; (split; [reflexivity|]); cbn;
         (split; [rewrite <- ?app_assoc; reflexivity|]); cbn; auto.
Qed.

Lemma insert_into_index_logged w d :
  stored_docs w = ADict d ->
  exists evs w',
    insert_into_index C doc_file_path doc_id w = (Ok tt, w') /\
    history w' = history w ++ evs /\ well_logged evs.
Proof.
  intro Hs.
  unfold insert_into_index, bind, read.
  destruct (index w) as [ix|] eqn:Hix.
  2:{ stops_here. split; reflexivity. }
  destruct (os_path_exists C doc_file_path w) as [r0 w0] eqn:Hex.
  unfold os_path_exists, read in Hex. injection Hex as <- <-.
  match goal with
  | |- context [negb ?b] => destruct b
  end; cbn [negb].
  2:{ stops_here. split; reflexivity. }
  unfold try_except, bind, log, update, reader_load_data.
  cbn [history record].
  match goal with
  | |- context [load_data C ?h ?p] => destruct (load_data C h p) as [docs|e]
  end.
  2:{ stops_here. split; reflexivity. }
  destruct docs as [|document rest].
  { stops_here. split; reflexivity. }
  set (w1 := record (Logged (LLoaded _)) _).
  assert (Hix1 : index w1 = Some ix) by exact Hix.
  assert (Hs1 : stored_docs w1 = ADict d) by exact Hs.
  destruct (process_documents_logged (document :: rest) [] w1 ix d Hix1 Hs1)
    as (evs & ids & w2 & ix2 & Hrun & Hh & Hl & Hix2).
  rewrite Hrun.
  destruct ids as [|i ids].
  - eexists; eexists. split; [reflexivity|].
    split; [cbn; rewrite Hh; subst w1; cbn; rewrite <- !app_assoc; reflexivity|].
    change (well_logged
              ([Logged (LInserting doc_file_path
                          match doc_id with
                          | Some i => if PyStr.truthy i then i else "Auto"
                          | None => "Auto"
                          end);
                Called (CLoadData doc_file_path (Ok (document :: rest)));
                Logged (LLoaded (List.length (document :: rest)))]
               ++ evs ++ [Logged LNothingToPersist])).
    repeat apply well_logged_app; auto; split; reflexivity.
  - destruct (persist_changes_logged (i :: ids) w2 ix2 Hix2)
      as (evs3 & w3 & Hrun3 & Hh3 & Hl3).
    rewrite Hrun3.
    eexists; eexists. split; [reflexivity|].
    split; [rewrite Hh3, Hh; subst w1; cbn; rewrite <- !app_assoc; reflexivity|].
    change (well_logged
              ([Logged (LInserting doc_file_path
                          match doc_id with
                          | Some i => if PyStr.truthy i then i else "Auto"
                          | None => "Auto"
                          end);
                Called (CLoadData doc_file_path (Ok (document :: rest)));
                Logged (LLoaded (List.length (document :: rest)))]
               ++ evs ++ evs3)).
    repeat apply well_logged_app; auto; split; reflexivity.
Qed.

End Logged.

(** X11: with [stored_docs] a dict, every exception a collaborator
    raises during an insert (reader, index insertion, snapshot write,
    preview write) is logged once with its text, in the order raised,
    and nothing else is logged as an exception; and the identifiers
    logged as inserted are those of the parts the index accepted. *)
Theorem insert_into_index_logs_what_is_raised :
  forall C w doc_file_path doc_id,
    isinstance_dict (stored_docs w) = true ->
    let evs := events_since w (snd (insert_into_index C doc_file_path doc_id w)) in
    error_texts (logs evs) = errors_of (calls evs) /\
    accepted_logs (logs evs) = map id_ (inserted_by (calls evs)).
Proof.
  intros C w doc_file_path doc_id Hdict.
  destruct (is_dict_inv _ Hdict) as (d & Hs).
  destruct (insert_into_index_logged C doc_file_path doc_id w d Hs)
    as (evs & w' & Hrun & Hh & Hl).
  along Hrun Hh. exact Hl.
Qed.

Lemma insert_into_index_logs_what_is_raised_witness :
  error_texts (logs (events_since ready
     (snd (insert_into_index picky notes_path None ready)))) =
    ["nothing to embed"].
Proof.
  destruct (@insert_into_index_logs_what_is_raised picky ready notes_path None
              eq_refl) as (He & _).
  rewrite He. reflexivity.
Defined.

Lemma query_index_logged C w query_text :
  exists evs r w',
    query_index C query_text w = (r, w') /\
    history w' = history w ++ evs /\
    error_texts (logs evs) = errors_of (calls evs).
Proof.
  destruct (index w) as [ix|] eqn:Hix.
  - destruct (@query_index_ready C w ix query_text Hix)
      as (outcome & w' & Hrun & _ & Hh & _).
    eexists; eexists; eexists. split; [exact Hrun|]. split; [exact Hh|].
    destruct outcome; reflexivity.
  - exists [Logged LQueryNotReady]. eexists; eexists.
    unfold query_index, bind, read. rewrite Hix.
    split; [reflexivity|]. split; reflexivity.
Qed.

Lemma get_documents_list_logged C w :
  exists evs r w',
    get_documents_list C w = (r, w') /\
    history w' = history w ++ evs /\
    error_texts (logs evs) = errors_of (calls evs).
Proof.
  unfold get_documents_list, reload_stored_docs, bind, read, try_except,
    os_path_exists, pickle_load, log, update, ret.
  destruct (stored_docs w) as [d|repr] eqn:Hs; cbn; rewrite ?Hs; cbn.
  - eexists; eexists; eexists. split; [reflexivity|]. cbn.
    split; reflexivity.
  - destruct (pkl_file w) as [[[d0|r0]|e]|] eqn:Hp; cbn; rewrite ?Hp; cbn;
      eexists; eexists; eexists; (split; [reflexivity|]); cbn;
      (split; [rewrite <- ?app_assoc; reflexivity|]); reflexivity.
Qed.

(** X12: [query_index] and [get_documents_list] log every exception a
    collaborator raises (the engine, the reload of the preview file),
    once and with its text, and log nothing else as an exception. *)
Theorem query_and_list_log_what_is_raised :
  forall C w,
    (forall query_text,
       let evs := events_since w (snd (query_index C query_text w)) in
       error_texts (logs evs) = errors_of (calls evs)) /\
    (let evs := events_since w (snd (get_documents_list C w)) in
     error_texts (logs evs) = errors_of (calls evs)).
Proof.
  intros C w. split.
  - intro query_text.
    destruct (query_index_logged C w query_text) as (evs & r & w' & Hrun & Hh & Hl).
    along Hrun Hh. exact Hl.
  - destruct (get_documents_list_logged C w) as (evs & r & w' & Hrun & Hh & Hl).
    along Hrun Hh. exact Hl.
Qed.

Lemma initialize_index_logged C w :
  exists evs r w',
    initialize_index C w = (r, w') /\
    history w' = history w ++ evs /\
    errors_of (calls evs) =
      error_texts (logs evs) ++
      match r with Ok _ => [] | Raised e => [e] end.
Proof.
  unfold_initialize.
  destruct (saved_index w) as [[ix|e0]|] eqn:Hsi; cbn; rewrite ?Hsi; cbn;
    try match goal with
        | |- context [persist C ?h ?i] =>
            destruct (persist C h i) as [|e1 r1] eqn:Hw
        end;
    cbn;
    try (destruct (pkl_file w) as [[o|e']|] eqn:Hp; cbn; rewrite ?Hp; cbn);
    eexists; eexists; eexists; (split; [reflexivity|]); cbn;
    (split; [rewrite <- ?app_assoc; reflexivity|]); reflexivity.
Qed.

(** X13: [initialize_index] logs every exception raised by the loading
    of the snapshot and of the preview file, once and with its text; the
    one exception it does not log is the one it raises itself, from the
    write of a fresh snapshot. *)
Theorem initialize_index_logs_what_it_catches :
  forall C w,
    let run := initialize_index C w in
    let evs := events_since w (snd run) in
    errors_of (calls evs) =
      error_texts (logs evs) ++
      match fst run with Ok _ => [] | Raised e => [e] end.
Proof.
  intros C w.
  destruct (initialize_index_logged C w) as (evs & r & w' & Hrun & Hh & Hl).
  along Hrun Hh. exact Hl.
Qed.

(* ===================================================================== *)
(** ** The store only grows *)
(* ===================================================================== *)

Lemma set_keys_In k v d k' :
  In k' (map fst (PyDict.set k v d)) <-> k' = k \/ In k' (map fst d).
Proof.
  induction d as [|[k0 v0] d IH]; simpl.
  - intuition.
  - destruct (String.eqb_spec k0 k) as [->|N]; simpl; [intuition|].
    rewrite IH. intuition.
Qed.

Lemma set_keys_NoDup k v d :
  NoDup (map fst d) -> NoDup (map fst (PyDict.set k v d)).
Proof.
  induction d as [|[k0 v0] d IH]; simpl; intro H.
  - constructor; [intros [] | constructor].
  - inversion H as [|? ? Hn Hd]; subst.
    destruct (String.eqb_spec k0 k) as [->|N]; simpl.
    + constructor; assumption.
    + constructor; [|now apply IH].
      rewrite set_keys_In. intros [E|E]; [congruence | contradiction].
Qed.

Lemma set_length k v d :
  List.length d <= List.length (PyDict.set k v d) <= S (List.length d).
Proof.
  induction d as [|[k0 v0] d IH]; simpl; [lia|].
  destruct (String.eqb k0 k); simpl; lia.
Qed.

Lemma fold_put_preview_keys ps : forall d,
  NoDup (map fst d) ->
  let d' := fold_left put_preview ps d in
  NoDup (map fst d') /\
  (forall k, In k (map fst d') <-> In k (map fst d) \/ In k (map id_ ps)) /\
  List.length d <= List.length d' <= List.length d + List.length ps.
Proof.
  induction ps as [|p ps IH]; intros d Hd; simpl.
  - repeat split; auto; try lia. intros [H|[]]; exact H.
  - destruct (IH (put_preview d p) (set_keys_NoDup _ _ _ Hd)) as (Hn & Hk & Hl).
    pose proof (set_length (id_ p) (preview (text p)) d) as Hs.
    unfold put_preview in *.
    split; [exact Hn|]. split; [|lia].
    intro k. rewrite Hk, set_keys_In. intuition.
Qed.

(** X15: with [stored_docs] a dict without repeated keys, as a Python
    dict is, an insert leaves it one: no identifier is listed twice, no
    entry is removed, the identifiers added are those of accepted parts,
    and the store grows by at most one entry per accepted part. *)
Theorem insert_into_index_keeps_store_a_map :
  forall C w d doc_file_path doc_id,
    stored_docs w = ADict d ->
    NoDup (map fst d) ->
    let w' := snd (insert_into_index C doc_file_path doc_id w) in
    let accepted := inserted_by (calls (events_since w w')) in
    exists d',
      stored_docs w' = ADict d' /\
      NoDup (map fst d') /\
      (forall k, In k (map fst d') <->
                 In k (map fst d) \/ In k (map id_ accepted)) /\
      List.length d <= List.length d' <= List.length d + List.length accepted.
Proof.
  intros C w d doc_file_path doc_id Hs Hd.
  destruct (insert_into_index_dict C doc_file_path doc_id w d Hs)
    as (evs & w' & Hrun & Hh & Hsd & _).
  along Hrun Hh.
  exists (fold_left put_preview (inserted_by (calls evs)) d).
  split; [exact Hsd|].
  exact (fold_put_preview_keys (inserted_by (calls evs)) d Hd).
Qed.

Lemma insert_into_index_keeps_store_a_map_witness :
  exists d',
    stored_docs (snd (insert_into_index steady notes_path (Some "d1")
                   (snd (insert_into_index steady notes_path (Some "d1") ready))))
      = ADict d' /\
    List.length d' = 1.
Proof.
  destruct (@insert_into_index_keeps_store_a_map steady
              (snd (insert_into_index steady notes_path (Some "d1") ready))
              [("d1", "Vector indexes map text to embeddings.")]
              notes_path (Some "d1") eq_refl)
    as (d' & Hs & Hn & Hk & Hl).
  - constructor; [intros [] | constructor].
  - exists d'. split; [exact Hs|].
    vm_compute in Hs. injection Hs as <-. reflexivity.
Defined.

(* ===================================================================== *)
(** ** A file the reader cannot read, or reads as nothing *)
(* ===================================================================== *)

(** X16: when the reader raises [e] on a file that exists, the insert
    returns [None], logs [e] as an error, hands nothing to the index and
    leaves [index], [stored_docs] and both durable artifacts as they
    were. *)
Theorem unreadable_file_insert :
  forall C w ix doc_file_path doc_id e,
    index w = Some ix ->
    fst (os_path_exists C doc_file_path w) = Ok true ->
    load_data C (history w ++ [Logged (LInserting doc_file_path (shown_id doc_id))])
      doc_file_path = Raised e ->
    let run := insert_into_index C doc_file_path doc_id w in
    fst run = Ok tt /\
    events_since w (snd run) =
      [Logged (LInserting doc_file_path (shown_id doc_id));
       Called (CLoadData doc_file_path (Raised e));
       Logged (LProcessingError doc_file_path e)] /\
    level (LProcessingError doc_file_path e) = ERROR /\
    index (snd run) = index w /\ stored_docs (snd run) = stored_docs w /\
    saved_index (snd run) = saved_index w /\ pkl_file (snd run) = pkl_file w.
Proof.
  intros C w ix doc_file_path doc_id e Hix Hex Hload.
  assert (Hrun : exists w',
            insert_into_index C doc_file_path doc_id w = (Ok tt, w') /\
            history w' = history w ++
              [Logged (LInserting doc_file_path (shown_id doc_id));
               Called (CLoadData doc_file_path (Raised e));
               Logged (LProcessingError doc_file_path e)] /\
            index w' = index w /\ stored_docs w' = stored_docs w /\
            saved_index w' = saved_index w /\ pkl_file w' = pkl_file w).
  { unfold insert_into_index, bind, read. rewrite Hix.
    destruct (os_path_exists C doc_file_path w) as [r0 w0] eqn:E.
    unfold os_path_exists, read in E. injection E as <- <-.
    cbn [fst] in Hex. injection Hex as ->. cbn [negb].
    unfold try_except, bind, log, update, reader_load_data.
    cbn [history record]. fold (shown_id doc_id). rewrite Hload.
    eexists. split; [reflexivity|]. cbn. rewrite <- !app_assoc. auto 10. }
  destruct Hrun as (w' & Hrun & Hh & Hi & Hs & Hsi & Hpk).
  along Hrun Hh. auto 10.
Qed.

(** X17: when the reader returns no part for a file that exists, the
    insert returns [None], logs a warning, hands nothing to the index
    and leaves [index], [stored_docs] and both durable artifacts as they
    were. *)
Theorem empty_file_insert :
  forall C w ix doc_file_path doc_id,
    index w = Some ix ->
    fst (os_path_exists C doc_file_path w) = Ok true ->
    load_data C (history w ++ [Logged (LInserting doc_file_path (shown_id doc_id))])
      doc_file_path = Ok [] ->
    let run := insert_into_index C doc_file_path doc_id w in
    fst run = Ok tt /\
    events_since w (snd run) =
      [Logged (LInserting doc_file_path (shown_id doc_id));
       Called (CLoadData doc_file_path (Ok []));
       Logged (LNoDocuments doc_file_path)] /\
    level (LNoDocuments doc_file_path) = WARNING /\
    index (snd run) = index w /\ stored_docs (snd run) = stored_docs w /\
    saved_index (snd run) = saved_index w /\ pkl_file (snd run) = pkl_file w.
Proof.
  intros C w ix doc_file_path doc_id Hix Hex Hload.
  assert (Hrun : exists w',
            insert_into_index C doc_file_path doc_id w = (Ok tt, w') /\
            history w' = history w ++
              [Logged (LInserting doc_file_path (shown_id doc_id));
               Called (CLoadData doc_file_path (Ok []));
               Logged (LNoDocuments doc_file_path)] /\
            index w' = index w /\ stored_docs w' = stored_docs w /\
            saved_index w' = saved_index w /\ pkl_file w' = pkl_file w).
  { unfold insert_into_index, bind, read. rewrite Hix.
    destruct (os_path_exists C doc_file_path w) as [r0 w0] eqn:E.
    unfold os_path_exists, read in E. injection E as <- <-.
    cbn [fst] in Hex. injection Hex as ->. cbn [negb].
    unfold try_except, bind, log, update, reader_load_data.
    cbn [history record]. fold (shown_id doc_id). rewrite Hload.
    eexists. split; [reflexivity|]. cbn. rewrite <- !app_assoc. auto 10. }
  destruct Hrun as (w' & Hrun & Hh & Hi & Hs & Hsi & Hpk).
  along Hrun Hh. auto 10.
Qed.

(* ===================================================================== *)
(** ** Previews stay short, fallback identifiers are file names *)
(* ===================================================================== *)

Lemma preview_length t : PyStr.len (preview t) <= 203.
Proof.
  destruct (Nat.le_gt_cases (PyStr.len t) 200) as [H|H].
  - rewrite (preview_short _ H). lia.
  - destruct (preview_long _ H) as (_ & ->). lia.
Qed.

Lemma set_previews_within n k v d :
  PyStr.len v <= n -> previews_within n d ->
  previews_within n (PyDict.set k v d).
Proof.
  unfold previews_within. intros Hv Hd.
  induction d as [|[k0 v0] d IH]; simpl.
  - constructor; [exact Hv | constructor].
  - inversion Hd as [|? ? H0 Hd']; subst.
    destruct (String.eqb k0 k); constructor; auto.
Qed.

Lemma fold_put_preview_within ps : forall d,
  previews_within 203 d -> previews_within 203 (fold_left put_preview ps d).
Proof.
  induction ps as [|p ps IH]; intros d Hd; simpl; [exact Hd|].
  apply IH. unfold put_preview. apply set_previews_within; [|exact Hd].
  apply preview_length.
Qed.

(** X18: no insert stores a preview of more than 203 characters,
    counted as [len] counts them: a dict store whose previews are all
    that short stays so, whatever the length of the texts the reader
    returns. *)
Theorem insert_into_index_keeps_previews_short :
  forall C w d doc_file_path doc_id,
    stored_docs w = ADict d ->
    previews_within 203 d ->
    exists d',
      stored_docs (snd (insert_into_index C doc_file_path doc_id w)) = ADict d' /\
      previews_within 203 d'.
Proof.
  intros C w d doc_file_path doc_id Hs Hd.
  destruct (insert_into_index_dict C doc_file_path doc_id w d Hs)
    as (evs & w' & Hrun & _ & Hsd & _).
  rewrite Hrun. cbn [snd]. eexists. split; [exact Hsd|].
  now apply fold_put_preview_within.
Qed.

Lemma basename_no_slash p : PyStr.has_slash (PyStr.basename p) = false.
Proof.
  induction p as [|c p IH]; [reflexivity|].
  rewrite basename_cons.
  destruct (PyStr.is_slash c) eqn:Ec; [exact IH|].
  destruct (PyStr.has_slash p) eqn:Ep; [exact IH|].
  simpl. now rewrite Ec, Ep.
Qed.

(** X19: when the identifier falls back to the file name (an empty
    [doc_id], or none and an empty loader identifier), the tag of the
    part is the last component of the path: it has no ['/'], and for a
    path [dir/name] it is [name]. *)
Theorem fallback_id_is_file_name :
  forall doc_file_path doc_id document,
    doc_id = Some "" \/ (doc_id = None /\ id_ document = "") ->
    PyStr.has_slash (id_ (tag doc_file_path doc_id document)) = false /\
    (forall dir name,
       PyStr.has_slash name = false ->
       doc_file_path = (dir ++ "/" ++ name)%string ->
       id_ (tag doc_file_path doc_id document) = name).
Proof.
  intros doc_file_path doc_id document H.
  unfold tag, with_id. cbn [id_].
  rewrite (effective_doc_id_basename doc_file_path doc_id document H).
  split; [apply basename_no_slash|].
  intros dir name Hn ->. now apply basename_join.
Qed.

Lemma unreadable_file_insert_witness :
  fst (insert_into_index unreadable notes_path None ready) = Ok tt /\
  stored_docs (snd (insert_into_index unreadable notes_path None ready)) =
    stored_docs ready.
Proof.
  destruct (@unreadable_file_insert unreadable ready empty_index notes_path None
              "Unsupported file type" eq_refl eq_refl eq_refl)
    as (Hr & _ & _ & _ & Hs & _).
  split; [exact Hr | exact Hs].
Defined.

Lemma empty_file_insert_witness :
  fst (insert_into_index blank notes_path None ready) = Ok tt /\
  saved_index (snd (insert_into_index blank notes_path None ready)) =
    saved_index ready.
Proof.
  destruct (@empty_file_insert blank ready empty_index notes_path None
              eq_refl eq_refl eq_refl)
    as (Hr & _ & _ & _ & _ & Hsi & _).
  split; [exact Hr | exact Hsi].
Defined.

Lemma insert_into_index_keeps_previews_short_witness :
  stored_docs (snd (insert_into_index accents notes_path None ready_with_an_entry)) =
    ADict [("old", "kept"); ("auto-2", (PyStr.times 200 e_acute ++ "...")%string)] /\
  PyStr.len (text accents_part) = 201 /\
  PyStr.len (PyStr.times 200 e_acute ++ "...")%string = 203 /\
  previews_within 203
    [("old", "kept"); ("auto-2", (PyStr.times 200 e_acute ++ "...")%string)].
Proof.
  destruct (@insert_into_index_keeps_previews_short accents ready_with_an_entry
              [("old", "kept")] notes_path None)
    as (d' & Hs & Hw).
  - reflexivity.
  - repeat constructor.
  - assert (E : stored_docs
                  (snd (insert_into_index accents notes_path None
                          ready_with_an_entry)) =
                ADict [("old", "kept");
                       ("auto-2", (PyStr.times 200 e_acute ++ "...")%string)])
      by (vm_compute; reflexivity).
    rewrite E in Hs. injection Hs as <-.
    split; [exact E|].
    split; [vm_compute; reflexivity|].
    split; [vm_compute; reflexivity | exact Hw].
Defined.

Lemma fallback_id_is_file_name_witness :
  id_ (tag notes_path (Some "") notes_part) = "notes.txt".
Proof.
  destruct (@fallback_id_is_file_name notes_path (Some "") notes_part
              (or_introl eq_refl)) as (_ & Hname).
  apply (Hname "/srv/documents" "notes.txt"); reflexivity.
Defined.

(* ===================================================================== *)
(** ** The front end: [GET /query] and [GET /getDocuments] *)
(* ===================================================================== *)

Lemma query_index_returns C query_text w :
  exists r w', query_index C query_text w = (Ok r, w').
Proof.
  destruct (index w) as [ix|] eqn:Hix.
  - destruct (@query_index_ready C w ix query_text Hix) as (o & w' & Hrun & _).
    rewrite Hrun. eexists; eexists; reflexivity.
  - unfold query_index, bind, read. rewrite Hix. cbn.
    eexists; eexists; reflexivity.
Qed.

Section FrontEndFacts.

Variables Item Node Score Meta : Type.
Variable F : FlaskDemo.FrontEnd Item Node Score Meta.
Variable C : Collaborators.

Lemma collect_sources_returns items : forall sources s,
  exists r s',
    FlaskDemo.collect_sources F items sources s = (r, s') /\
    FlaskDemo.server s' = FlaskDemo.server s.
Proof.
  induction items as [|x items IH]; intros sources s; simpl.
  - eexists; eexists; split; reflexivity.
  - destruct (FlaskDemo.item_node F x) as [node|].
    + destruct (FlaskDemo.source_of F x node) as [src|e];
        [apply IH | eexists; eexists; split; reflexivity].
    + unfold FlaskDemo.fbind, FlaskDemo.flog, FlaskDemo.fnote.
      destruct (IH sources
                  {| FlaskDemo.server := FlaskDemo.server s;
                     FlaskDemo.front :=
                       FlaskDemo.front s ++
                       [FlaskDemo.FLogged FlaskDemo.FUnexpectedNode] |})
        as (r & s' & Hrun & Hs).
      rewrite Hrun. exists r, s'. split; [reflexivity | exact Hs].
Qed.

(** X20: [GET /query] never raises and answers 200, 400 or 500; it
    answers 400 exactly when the request has no [text] argument, and
    then calls nothing and changes nothing. *)
Theorem query_handler_status :
  forall text s,
    exists (body : FlaskDemo.Body (FlaskDemo.Source Score Meta)) status,
      fst (FlaskDemo.query_index F C text s) = Ok (body, status) /\
      (status = 200 \/ status = 400 \/ status = 500) /\
      (status = 400 <-> text = None) /\
      (text = None -> snd (FlaskDemo.query_index F C text s) = s).
Proof.
  intros [query_text|] s.
  2:{ eexists; eexists. split; [reflexivity|]. cbn. intuition. }
  unfold FlaskDemo.query_index, FlaskDemo.ftry, FlaskDemo.fbind,
    FlaskDemo.remote, FlaskDemo.flog, FlaskDemo.fnote, FlaskDemo.fret.
  destruct (FlaskDemo.link F (FlaskDemo.front s)) as [|e|e].
  - destruct (query_index_returns C query_text (FlaskDemo.server s))
      as (r & w' & ->).
    match goal with
    | |- context [FlaskDemo.collect_sources F ?i ?l ?st] =>
        destruct (collect_sources_returns i l st) as ([srcs|e] & s' & -> & _)
    end.
    + eexists; eexists. split; [reflexivity|]. cbn.
      split; [auto|]. split; [split; discriminate | discriminate].
    + eexists; eexists. split; [reflexivity|]. cbn.
      split; [auto|]. split; [split; discriminate | discriminate].
  - eexists; eexists. split; [reflexivity|]. cbn.
    split; [auto|]. split; [split; discriminate | discriminate].
  - eexists; eexists. split; [reflexivity|]. cbn.
    split; [auto|]. split; [split; discriminate | discriminate].
Qed.

(** X21: an error of the server's [query_index] reaches the HTTP client
    as an answer with status 200: with the link up, a query before
    initialization answers 200 with the text ["Error: Index not ready."],
    and a query on which the engine raises [e] answers 200 with the text
    ["Error during query: "] followed by [e]; both with no source. *)
Theorem server_errors_answer_200 :
  forall query_text s,
    FlaskDemo.link F (FlaskDemo.front s) = FlaskDemo.Delivered ->
    (index (FlaskDemo.server s) = None ->
     fst (FlaskDemo.query_index F C (Some query_text) s) =
       Ok (FlaskDemo.JAnswer "Error: Index not ready." [], 200)) /\
    (forall ix e,
       index (FlaskDemo.server s) = Some ix ->
       engine_query C
         (history (FlaskDemo.server s) ++
          [Logged (LQuerying (PyStr.prefix 50 query_text))])
         ix query_text = Raised e ->
       fst (FlaskDemo.query_index F C (Some query_text) s) =
         Ok (FlaskDemo.JAnswer ("Error during query: " ++ e) [], 200)).
Proof.
  intros query_text s Hlink.
  unfold FlaskDemo.query_index, FlaskDemo.ftry, FlaskDemo.fbind,
    FlaskDemo.remote, FlaskDemo.fret.
  rewrite Hlink. split.
  - intro Hix.
    assert (Hrun : query_index C query_text (FlaskDemo.server s) =
                   (Ok (RStr "Error: Index not ready."),
                    record (Logged LQueryNotReady) (FlaskDemo.server s))).
    { unfold query_index, bind, read. rewrite Hix. reflexivity. }
    rewrite Hrun. reflexivity.
  - intros ix e Hix He.
    destruct (@query_index_ready C (FlaskDemo.server s) ix query_text Hix)
      as (outcome & w' & Hrun & Ho & _).
    rewrite He in Ho. subst outcome. rewrite Hrun. reflexivity.
Qed.

(** X22: when the link to the server breaks, [GET /query] and
    [GET /getDocuments] answer 500 with a fixed message and log the
    error; when it broke before the server ran the operation, the server
    is as it was. *)
Theorem lost_link_answers_500 :
  forall query_text s e,
    FlaskDemo.link F (FlaskDemo.front s) = FlaskDemo.LostRequest e \/
    FlaskDemo.link F (FlaskDemo.front s) = FlaskDemo.LostReply e ->
    let q := FlaskDemo.query_index F C (Some query_text) s in
    let g := FlaskDemo.get_documents F C s in
    fst q = Ok (FlaskDemo.JError "An error occurred while querying the index.", 500) /\
    FlaskDemo.front (snd q) =
      FlaskDemo.front s ++
      [FlaskDemo.FCalled (FlaskDemo.RpcQuery query_text) (Some e);
       FlaskDemo.FLogged (FlaskDemo.FQueryError e)] /\
    fst g = Ok (FlaskDemo.JError "An error occurred while retrieving documents.", 500) /\
    FlaskDemo.front (snd g) =
      FlaskDemo.front s ++
      [FlaskDemo.FCalled FlaskDemo.RpcList (Some e);
       FlaskDemo.FLogged (FlaskDemo.FDocumentsError e)] /\
    (FlaskDemo.link F (FlaskDemo.front s) = FlaskDemo.LostRequest e ->
     FlaskDemo.server (snd q) = FlaskDemo.server s /\
     FlaskDemo.server (snd g) = FlaskDemo.server s).
Proof.
  intros query_text s e Hlink.
  unfold FlaskDemo.query_index, FlaskDemo.get_documents, FlaskDemo.ftry,
    FlaskDemo.fbind, FlaskDemo.remote, FlaskDemo.flog, FlaskDemo.fnote,
    FlaskDemo.fret.
  destruct Hlink as [Hlink|Hlink]; rewrite Hlink; cbn;
    rewrite <- ?app_assoc; repeat split; auto; discriminate.
Qed.


(* ===================================================================== *)
(** ** The front end: [POST /uploadFile] *)
(* ===================================================================== *)

Ltac unfold_upload :=
  unfold FlaskDemo.upload_file, FlaskDemo.ffinally, FlaskDemo.ftry,
    FlaskDemo.fbind, FlaskDemo.do_makedirs, FlaskDemo.do_save,
    FlaskDemo.remote, FlaskDemo.clean_up, FlaskDemo.flog, FlaskDemo.fnote,
    FlaskDemo.fret.

(** X24: [POST /uploadFile] answers 400, calling nothing and changing
    nothing, exactly for a request without a [file] part or with an
    empty file name.  For any other request it raises only what
    [os.makedirs] raises, before anything is saved or sent, and
    otherwise answers 200 or 500. *)
Theorem upload_handler_status :
  forall request s,
    let run := FlaskDemo.upload_file F C request s in
    (FlaskDemo.turned_down request = true ->
     exists msg, run = (Ok (FlaskDemo.JError msg, 400), s)) /\
    (FlaskDemo.turned_down request = false ->
     (forall e,
        FlaskDemo.makedirs F (FlaskDemo.front s) (FlaskDemo.docs_dir F) = Some e ->
        run = (Raised e,
               {| FlaskDemo.server := FlaskDemo.server s;
                  FlaskDemo.front :=
                    FlaskDemo.front s ++
                    [FlaskDemo.FMakedirs (FlaskDemo.docs_dir F) (Some e)] |})) /\
     (FlaskDemo.makedirs F (FlaskDemo.front s) (FlaskDemo.docs_dir F) = None ->
      exists body status,
        fst run = Ok (body, status) /\ (status = 200 \/ status = 500))).
Proof.
  intros request s. unfold FlaskDemo.turned_down. unfold_upload.
  fold (FlaskDemo.docs_dir F).
  destruct (FlaskDemo.file request) as [name|]; cbn zeta.
  2:{ split; [intros _; eexists; reflexivity | discriminate]. }
  destruct (PyStr.truthy name); cbn [negb].
  2:{ split; [intros _; eexists; reflexivity | discriminate]. }
  split; [discriminate|]. intros _. split.
  - intros e He. rewrite He. reflexivity.
  - intro Hm. rewrite Hm. cbn [FlaskDemo.front FlaskDemo.server].
    match goal with
    | |- context [FlaskDemo.save F ?h ?p] =>
        destruct (FlaskDemo.save F h p) as [e|]
    end; cbn [FlaskDemo.front FlaskDemo.server].
    { eexists; eexists. split; [reflexivity|]. auto. }
    match goal with
    | |- context [FlaskDemo.link F ?h] =>
        destruct (FlaskDemo.link F h) as [|e|e]
    end; cbn [FlaskDemo.front FlaskDemo.server].
    + match goal with
      | |- context [insert_into_index C ?p ?i ?w] =>
          destruct (insert_into_index_any C p i w) as (evs & w' & -> & _)
      end.
      eexists; eexists. split; [reflexivity|]. auto.
    + eexists; eexists. split; [reflexivity|]. auto.
    + eexists; eexists. split; [reflexivity|]. auto.
Qed.

(** X25: when the directory can be made, the file saved and the link
    is up, [POST /uploadFile] answers 200 with "File '...' uploaded and
    sent for indexing." whatever [insert_into_index] did on the server
    (not initialized, file not readable, every part refused): the
    server's insert has run on the saved path, with the secured file
    name as [doc_id] exactly when the form has [filename_as_doc_id]. *)
Theorem upload_answers_200_whatever_the_server_did :
  forall request name s,
    FlaskDemo.file request = Some name -> name <> "" ->
    (forall h p, FlaskDemo.makedirs F h p = None) ->
    (forall h p, FlaskDemo.save F h p = None) ->
    (forall h, FlaskDemo.link F h = FlaskDemo.Delivered) ->
    let run := FlaskDemo.upload_file F C request s in
    let filepath := FlaskDemo.upload_path F name in
    let doc_id := FlaskDemo.doc_id_to_pass F request name in
    fst run =
      Ok (FlaskDemo.JMessage
            ("File '" ++ FlaskDemo.secure_filename F name ++
             "' uploaded and sent for indexing."), 200) /\
    FlaskDemo.server (snd run) =
      snd (insert_into_index C filepath doc_id (FlaskDemo.server s)) /\
    In (FlaskDemo.FCalled (FlaskDemo.RpcInsert filepath doc_id) None)
       (FlaskDemo.front (snd run)).
Proof.
  intros request name s Hfile Hname Hm Hs Hl.
  unfold_upload.
  unfold FlaskDemo.upload_path, FlaskDemo.doc_id_to_pass, FlaskDemo.docs_dir.
  rewrite Hfile. cbn zeta.
  destruct name as [|c name]; [contradiction|]. cbn [PyStr.truthy negb].
  rewrite Hm. cbn [FlaskDemo.front FlaskDemo.server].
  rewrite Hs. cbn [FlaskDemo.front FlaskDemo.server].
  rewrite Hl. cbn [FlaskDemo.front FlaskDemo.server].
  match goal with
  | |- context [insert_into_index C ?p ?i ?w] =>
      destruct (insert_into_index_any C p i w) as (evs & w' & Hrun & _)
  end.
  rewrite Hrun. cbn [FlaskDemo.front FlaskDemo.server fst snd].
  match goal with
  | |- context [if ?b then _ else _] => destruct b
  end; cbn [FlaskDemo.front FlaskDemo.server fst snd];
    try match goal with
        | |- context [FlaskDemo.remove F ?h ?p] =>
            destruct (FlaskDemo.remove F h p)
        end;
    cbn [FlaskDemo.front FlaskDemo.server fst snd];
    repeat split; rewrite ?in_app_iff; cbn; intuition.
Qed.

Lemma truthy_app a b :
  PyStr.truthy (a ++ b)%string = PyStr.truthy a || PyStr.truthy b.
Proof. destruct a; reflexivity. Qed.

Lemma path_join_truthy a b :
  PyStr.truthy a = true -> PyStr.truthy (FlaskDemo.path_join a b) = true.
Proof.
  intro Ha. unfold FlaskDemo.path_join.
  destruct b as [|c b].
  - rewrite Ha. cbn [negb orb].
    destruct (FlaskDemo.ends_with_slash a); [exact Ha|].
    rewrite truthy_app, Ha. reflexivity.
  - destruct (PyStr.is_slash c); [reflexivity|].
    destruct (negb (PyStr.truthy a) || FlaskDemo.ends_with_slash a);
      rewrite !truthy_app; cbn; apply orb_true_r.
Qed.

Lemma upload_path_truthy name :
  PyStr.truthy (FlaskDemo.upload_path F name) = true.
Proof.
  unfold FlaskDemo.upload_path. apply path_join_truthy.
  unfold FlaskDemo.docs_dir, FlaskDemo.path_join.
  change (PyStr.is_slash "d") with false. cbn iota.
  destruct (negb (PyStr.truthy (FlaskDemo.root_path F))
            || FlaskDemo.ends_with_slash (FlaskDemo.root_path F));
    rewrite !truthy_app; cbn; apply orb_true_r.
Qed.

(** X26: whatever the save and the remote call did, [POST /uploadFile]
    ends by removing the temporary file when it is there: with
    [os.path.exists] true the last two records of the front end are the
    [os.remove] of the saved path and the log of its outcome, on the 200
    path as on the 500 path, and that is the only remove; with
    [os.path.exists] false nothing is removed. *)
Theorem upload_cleans_up :
  forall request name s,
    FlaskDemo.file request = Some name -> name <> "" ->
    FlaskDemo.makedirs F (FlaskDemo.front s) (FlaskDemo.docs_dir F) = None ->
    let run := FlaskDemo.upload_file F C request s in
    let filepath := FlaskDemo.upload_path F name in
    exists new,
      FlaskDemo.front (snd run) = FlaskDemo.front s ++ new /\
      ((forall h p, FlaskDemo.exists_ F h p = true) ->
       FlaskDemo.removals new = [filepath] /\
       exists pre err,
         new = pre ++ [FlaskDemo.FRemove filepath err;
                       FlaskDemo.FLogged
                         match err with
                         | None => FlaskDemo.FCleanedUp filepath
                         | Some e => FlaskDemo.FRemoveError filepath e
                         end]) /\
      ((forall h p, FlaskDemo.exists_ F h p = false) ->
       FlaskDemo.removals new = []).
Proof.
  intros request name s Hfile Hname Hm.
  pose proof (upload_path_truthy name) as Ht.
  unfold_upload.
  unfold FlaskDemo.upload_path, FlaskDemo.docs_dir in *.
  rewrite Hfile. cbn zeta.
  destruct name as [|c name]; [contradiction|]. cbn [PyStr.truthy negb].
  rewrite Hm. cbn [FlaskDemo.front FlaskDemo.server].
  match goal with
  | |- context [FlaskDemo.save F ?h ?p] =>
      destruct (FlaskDemo.save F h p) as [e|]
  end; cbn [FlaskDemo.front FlaskDemo.server].
  2: match goal with
     | |- context [FlaskDemo.link F ?h] =>
         destruct (FlaskDemo.link F h) as [|e|e]
     end; cbn [FlaskDemo.front FlaskDemo.server].
  2: match goal with
     | |- context [insert_into_index C ?p ?i ?w] =>
         destruct (insert_into_index_any C p i w) as (evs & w' & Hrun & _);
         rewrite Hrun
     end; cbn [FlaskDemo.front FlaskDemo.server].
  all: cbn [fst snd]; rewrite Ht; cbn [andb].
  all: match goal with
       | |- context [FlaskDemo.exists_ F ?h ?p] =>
           destruct (FlaskDemo.exists_ F h p) eqn:Hex
       end.
  all: try match goal with
           | |- context [FlaskDemo.remove F ?h ?p] =>
               destruct (FlaskDemo.remove F h p) as [er|]
           end.
  all: cbn [FlaskDemo.front FlaskDemo.server fst snd].
  all: eexists; (split; [rewrite <- ?app_assoc; reflexivity|]).
  all: split; intro Hall; try (rewrite Hall in Hex; discriminate Hex).
  all: try reflexivity.
  all: split; [reflexivity|].
  all: match goal with
       | |- exists pre err, ?l = _ =>
           exists (firstn (List.length l - 2) l);
           cbn [firstn List.length Nat.sub app];
           match l with
           | context [FlaskDemo.FRemove _ ?e0] => exists e0
           end; reflexivity
       end.
Qed.

End FrontEndFacts.

Lemma server_errors_answer_200_witness :
  fst (FlaskDemo.query_index working_front offline
         (Some "what is an index?") both_ready) =
    Ok (FlaskDemo.JAnswer
          "Error during query: Connection error: host api.openai.com, key sk-test"
          [], 200).
Proof.
  destruct (@server_errors_answer_200 nat nat nat nat working_front offline
              "what is an index?" both_ready eq_refl) as (_ & Hraise).
  exact (Hraise empty_index
           "Connection error: host api.openai.com, key sk-test"
           eq_refl eq_refl).
Defined.

Lemma lost_link_answers_500_witness :
  fst (FlaskDemo.query_index cut_off_front steady (Some "hello") both_ready) =
    Ok (FlaskDemo.JError "An error occurred while querying the index.", 500) /\
  fst (FlaskDemo.get_documents cut_off_front steady both_ready) =
    Ok (FlaskDemo.JError "An error occurred while retrieving documents.", 500).
Proof.
  destruct (@lost_link_answers_500 nat nat nat nat cut_off_front steady
              "hello" both_ready "Connection refused" (or_introl eq_refl))
    as (Hq & _ & Hg & _).
  split; [exact Hq | exact Hg].
Defined.

Lemma upload_answers_200_whatever_the_server_did_witness :
  fst (FlaskDemo.upload_file working_front steady
         {| FlaskDemo.file := Some "notes.txt";
            FlaskDemo.filename_as_doc_id := true |}
         both_not_initialized) =
    Ok (FlaskDemo.JMessage "File 'notes.txt' uploaded and sent for indexing.", 200) /\
  index (FlaskDemo.server
           (snd (FlaskDemo.upload_file working_front steady
                   {| FlaskDemo.file := Some "notes.txt";
                      FlaskDemo.filename_as_doc_id := true |}
                   both_not_initialized))) = None.
Proof.
  destruct (@upload_answers_200_whatever_the_server_did nat nat nat nat
              working_front steady
              {| FlaskDemo.file := Some "notes.txt";
                 FlaskDemo.filename_as_doc_id := true |}
              "notes.txt" both_not_initialized eq_refl)
    as (Hr & Hs & _);
    [discriminate|reflexivity|reflexivity|reflexivity|].
  split; [exact Hr|]. rewrite Hs. reflexivity.
Defined.

Lemma upload_cleans_up_witness :
  FlaskDemo.removals
    (FlaskDemo.front
       (snd (FlaskDemo.upload_file working_front steady
               {| FlaskDemo.file := Some "notes.txt";
                  FlaskDemo.filename_as_doc_id := false |}
               both_ready))) = ["/app/documents/notes.txt"].
Proof.
  destruct (@upload_cleans_up nat nat nat nat working_front steady
              {| FlaskDemo.file := Some "notes.txt";
                 FlaskDemo.filename_as_doc_id := false |}
              "notes.txt" both_ready eq_refl)
    as (new & Hfront & Htrue & _); [discriminate|reflexivity|].
  rewrite Hfront. destruct (Htrue (fun _ _ => eq_refl)) as (Hr & _).
  exact Hr.
Defined.

(** The front end and the server on a first upload and a query. *)
Example upload_then_query :
  let s1 := snd (FlaskDemo.upload_file working_front behind_front
                   {| FlaskDemo.file := Some "notes.txt";
                      FlaskDemo.filename_as_doc_id := true |}
                   both_ready) in
  fst (FlaskDemo.get_documents working_front behind_front s1) =
    Ok (FlaskDemo.JDocuments
          [("notes.txt", "Vector indexes map text to embeddings.")], 200) /\
  fst (FlaskDemo.query_index working_front behind_front (Some "what?") s1) =
    Ok (FlaskDemo.JAnswer "An answer." [], 200) /\
  fst (FlaskDemo.query_index working_front behind_front None s1) =
    Ok (FlaskDemo.JError "No text found, please include a ?text=blah parameter",
        400).
Proof. repeat split; reflexivity. Qed.
